(** * The vendored charting engine of the dashboard

    A shallow embedding of [apps/dashboard/src/vendor/recharts.tsx]: the
    numeric coercion, the series extractor, the domain calculator, the
    coordinate mapper, the axis tick selector and the bar renderer, with
    the properties the specification states about them.

    Modelling conventions.
    - A JavaScript [number] is a value of [num]: a finite number, [+Infinity],
      [-Infinity] or [NaN].  Finite numbers are exact rationals: the
      arithmetic follows IEEE 754 on special values and on division by
      zero, but the rounding of finite results to binary64, their
      overflow to an infinity and the sign of zero are not modelled
      (the conversion of a string or a BigInt does overflow).  Every
      finite result is kept in lowest terms ([Qred]), so that equal
      numbers are equal terms.  Module [B64] embeds [chartY] once more
      over the kernel's binary64 floats, for the one place where
      rounding changes an answer.
    - Array indices and lengths are [nat].
    - A string is a sequence of code units: a [string] where they are
      all below 256, a [list N] in the values of [unknown].
    - A [Datum] is a finite map from field names to values ([gmap]); a
      missing field reads as [undefined].  Its values are those a
      conversion returns on; [unknown] has every value, with the ones a
      conversion throws on, and [toNumber_unknown] is [toNumber] there. *)

From Stdlib Require Import QArith Qround Qabs Qcanon Lqa Lia Floats.
From Stdlib Require Import Ascii String DecimalString.
From stdpp Require Import gmap strings list.

(** ** JavaScript numbers *)

Inductive num : Type :=
| Fin (q : Q)
| PInf
| NInf
| NaN.

Declare Scope num_scope.
Delimit Scope num_scope with num.
Bind Scope num_scope with num.

Module Num.

Local Open Scope Q_scope.

Definition of_Z (z : Z) : num := Fin (inject_Z z).
Definition of_nat (n : nat) : num := of_Z (Z.of_nat n).

(** [Number.isFinite] and [Number.isNaN]. *)
Definition isFinite (n : num) : bool :=
  match n with Fin _ => true | _ => false end.

Definition isNaN (n : num) : bool :=
  match n with NaN => true | _ => false end.

(** The sign of a finite operand decides the sign of an infinite result. *)
Definition signed (q : Q) (pos neg zero : num) : num :=
  match q ?= 0 with
  | Gt => pos
  | Lt => neg
  | Eq => zero
  end.

Definition add (a b : num) : num :=
  match a, b with
  | NaN, _ | _, NaN => NaN
  | Fin x, Fin y => Fin (Qred (x + y))
  | PInf, NInf | NInf, PInf => NaN
  | PInf, _ | _, PInf => PInf
  | NInf, _ | _, NInf => NInf
  end.

Definition sub (a b : num) : num :=
  match a, b with
  | NaN, _ | _, NaN => NaN
  | Fin x, Fin y => Fin (Qred (x - y))
  | PInf, PInf | NInf, NInf => NaN
  | PInf, _ | _, NInf => PInf
  | NInf, _ | _, PInf => NInf
  end.

Definition mul (a b : num) : num :=
  match a, b with
  | NaN, _ | _, NaN => NaN
  | Fin x, Fin y => Fin (Qred (x * y))
  | Fin x, PInf | PInf, Fin x => signed x PInf NInf NaN
  | Fin x, NInf | NInf, Fin x => signed x NInf PInf NaN
  | PInf, PInf | NInf, NInf => PInf
  | PInf, NInf | NInf, PInf => NInf
  end.

(** A zero divisor counts as [+0]. *)
Definition div (a b : num) : num :=
  match a, b with
  | NaN, _ | _, NaN => NaN
  | Fin x, Fin y =>
      if Qeq_bool y 0 then signed x PInf NInf NaN else Fin (Qred (x / y))
  | Fin _, (PInf | NInf) => Fin 0
  | PInf, Fin y => signed y PInf NInf PInf
  | NInf, Fin y => signed y NInf PInf NInf
  | (PInf | NInf), (PInf | NInf) => NaN
  end.

(** The relational operators; every comparison with [NaN] is false. *)
Definition ltb (a b : num) : bool :=
  match a, b with
  | NaN, _ | _, NaN => false
  | Fin x, Fin y => negb (Qle_bool y x)
  | NInf, (Fin _ | PInf) => true
  | Fin _, PInf => true
  | _, _ => false
  end.

Definition leb (a b : num) : bool :=
  match a, b with
  | NaN, _ | _, NaN => false
  | Fin x, Fin y => Qle_bool x y
  | NInf, _ => true
  | _, PInf => true
  | _, _ => false
  end.

Definition gtb (a b : num) : bool := ltb b a.
Definition geb (a b : num) : bool := leb b a.

(** [Math.max] of two arguments, and of an argument list. *)
Definition max2 (a b : num) : num :=
  match a, b with
  | NaN, _ | _, NaN => NaN
  | _, _ => if ltb a b then b else a
  end.

Definition Math_max (args : list num) : num := fold_left max2 args NInf.

(** [===] on numbers. *)
Definition eqb (a b : num) : bool :=
  match a, b with
  | Fin x, Fin y => Qeq_bool x y
  | PInf, PInf | NInf, NInf => true
  | _, _ => false
  end.

(** [%]: the remainder takes the sign of the dividend. *)
Definition truncate (q : Q) : Z :=
  if Qle_bool 0 q then Qfloor q else Qceiling q.

Definition rem (a b : num) : num :=
  match a, b with
  | NaN, _ | _, NaN => NaN
  | (PInf | NInf), _ => NaN
  | Fin x, (PInf | NInf) => Fin (Qred x)
  | Fin x, Fin y =>
      if Qeq_bool y 0 then NaN
      else Fin (Qred (x - y * inject_Z (truncate (x / y))))
  end.

Definition Math_ceil (a : num) : num :=
  match a with
  | Fin x => of_Z (Qceiling x)
  | _ => a
  end.

(** [Math.round]: the nearest integer, ties towards [+Infinity]. *)
Definition Math_round (a : num) : num :=
  match a with
  | Fin x => of_Z (Qfloor (x + (1 # 2)))
  | _ => a
  end.

End Num.

Infix "+" := Num.add : num_scope.
Infix "-" := Num.sub : num_scope.
Infix "*" := Num.mul : num_scope.
Infix "/" := Num.div : num_scope.
Infix "<?" := Num.ltb : num_scope.
Infix "<=?" := Num.leb : num_scope.
Infix ">?" := Num.gtb : num_scope.
Infix ">=?" := Num.geb : num_scope.
Infix "===" := Num.eqb (at level 70, no associativity) : num_scope.

(** ** The canvas *)

Record Padding : Type := { top : num; right : num; bottom : num; left : num }.

Definition CHART_WIDTH : num := Fin 960.
Definition CHART_HEIGHT : num := Fin 320.
Definition CHART_PADDING : Padding :=
  {| top := Fin 20; right := Fin 20; bottom := Fin 52; left := Fin 56 |}.
Definition X_LABEL_LIMIT : nat := 6.

(** ** Coordinate mapper *)

Definition chartY (value maxValue : num) : num :=
  let usableHeight := (CHART_HEIGHT - top CHART_PADDING - bottom CHART_PADDING)%num in
  if (maxValue <=? Fin 0)%num then (CHART_HEIGHT - bottom CHART_PADDING)%num
  else (CHART_HEIGHT - bottom CHART_PADDING - (value / maxValue) * usableHeight)%num.

Definition chartX (index total : num) : num :=
  if (total <=? Fin 1)%num then left CHART_PADDING
  else
    let usableWidth := (CHART_WIDTH - left CHART_PADDING - right CHART_PADDING)%num in
    (left CHART_PADDING + (index / (total - Fin 1)) * usableWidth)%num.

(** ** Values and the built-in conversions *)

(** What a field of a row holds when the charts can draw it: the
    values [Number] and [String] convert without throwing.  These are
    the values of parsed JSON, but for an object that has a property
    named [toString] of its own, and [undefined] for a field that is
    missing.  An object or an array is seen by [Number] and [String]
    only through the string its [toString] method returns
    ([[object Object]] for a plain object, the joined elements for an
    array), and [VObj] carries that string.  A [string] holds the code
    units below 256, one in each character.  The values that make a
    conversion throw are in [unknown], below. *)
Inductive value : Type :=
| VUndefined
| VNull
| VBool (b : bool)
| VNum (n : num)
| VStr (s : string)
| VObj (str : string).

(** Any value of the language, as a conversion to a number sees it
    ([toNumber] takes an [unknown]).  A string is its sequence of UTF-16
    code units.  An object is seen through the methods the conversion
    looks up and calls on it, each with what it does then: the property
    holds no function, the call returns an object, the call returns a
    primitive, or looking it up or calling it throws.  [toPrimitive] is
    the method under [Symbol.toPrimitive], [None] when the object has
    none. *)
Inductive primitive : Type :=
| PUndefined
| PNull
| PBool (b : bool)
| PNum (n : num)
| PStr (units : list N)
| PSymbol
| PBigInt (z : Z).

Inductive method : Type :=
| NotCallable
| ReturnsObject
| Returns (p : primitive)
| Raises.

Record object : Type := {
  toPrimitive : option method;
  valueOf : method;
  toString : method
}.

Inductive unknown : Type :=
| UPrim (p : primitive)
| UObj (o : object).

(** How a call ends: with a result, or with an exception, which is a
    [TypeError] of the language or what a method of the object threw. *)
Inductive exception : Type := TypeError | Raised.

Inductive completion (A : Type) : Type :=
| Normal (a : A)
| Throw (e : exception).

Arguments Normal {A} a.
Arguments Throw {A} e.

Module JS.

Local Open Scope char_scope.

(** *** StringToNumber (ECMAScript 7.1.4.1.1) *)

(** White space and line terminators (StrWhiteSpaceChar), by code
    unit: TAB, LF, VT, FF, CR, SP, NBSP, the other space separators,
    LS, PS and the byte order mark. *)
Definition is_space_unit (u : N) : bool :=
  existsb (N.eqb u)
    [9; 10; 11; 12; 13; 32; 160; 5760; 8232; 8233; 8239; 8287; 12288;
     65279]%N
  || ((8192 <=? u)%N && (u <=? 8202)%N).

(** The same for a character of a [string]. *)
Definition is_space (c : ascii) : bool := is_space_unit (N_of_ascii c).

Section Trim.

Context {A : Type} (space : A -> bool).

Fixpoint drop_space (cs : list A) : list A :=
  match cs with
  | c :: cs' => if space c then drop_space cs' else cs
  | [] => []
  end.

Definition trim (cs : list A) : list A :=
  rev (drop_space (rev (drop_space cs))).

End Trim.

Definition digit (base : N) (c : ascii) : option N :=
  let n := N_of_ascii c in
  let d :=
    if (48 <=? n)%N && (n <=? 57)%N then Some (n - 48)%N
    else if (97 <=? n)%N && (n <=? 102)%N then Some (n - 87)%N
    else if (65 <=? n)%N && (n <=? 70)%N then Some (n - 55)%N
    else None in
  match d with
  | Some k => if (k <? base)%N then Some k else None
  | None => None
  end.

(** The longest run of digits at the head of [cs]: its value on top
    of [acc], how many digits it has, and what follows it. *)
Fixpoint digits (base acc : N) (cs : list ascii) : N * nat * list ascii :=
  match cs with
  | c :: cs' =>
      match digit base c with
      | Some k =>
          let '(v, n, rest) := digits base (acc * base + k)%N cs' in
          (v, S n, rest)
      | None => (acc, O, cs)
      end
  | [] => (acc, O, [])
  end.

(** A magnitude of [2^1024 - 2^970] or more rounds to infinity. *)
Definition overflow_bound : Q := inject_Z (2 ^ 1024 - 2 ^ 970).

Definition range (q : Q) : num :=
  if Qle_bool overflow_bound q then PInf
  else if Qle_bool q (- overflow_bound) then NInf
  else Fin (Qred q).

Definition integer_literal (base : N) (cs : list ascii) : num :=
  match digits base 0 cs with
  | (v, S _, []) => range (inject_Z (Z.of_N v))
  | _ => NaN
  end.

Definition exponent (cs : list ascii) : option Z :=
  match cs with
  | [] => Some 0%Z
  | ("e" | "E") :: cs' =>
      let '(neg, cs'') :=
        match cs' with
        | "+" :: r => (false, r)
        | "-" :: r => (true, r)
        | _ => (false, cs')
        end in
      match digits 10 0 cs'' with
      | (v, S _, []) => Some (if neg then (- Z.of_N v)%Z else Z.of_N v)
      | _ => None
      end
  | _ => None
  end.

Definition unsigned_decimal (cs : list ascii) : option Q :=
  let '(ip, ni, r1) := digits 10 0 cs in
  let '(m, nf, r2) :=
    match r1 with
    | "." :: r => digits 10 ip r
    | _ => (ip, O, r1)
    end in
  if (ni + nf =? 0)%nat then None
  else
    match exponent r2 with
    | Some e => Some (inject_Z (Z.of_N m) * Qpower 10 (e - Z.of_nat nf))%Q
    | None => None
    end.

Definition infinity_literal : list ascii :=
  ["I"; "n"; "f"; "i"; "n"; "i"; "t"; "y"].

Definition signed_decimal (neg : bool) (cs : list ascii) : num :=
  if decide (cs = infinity_literal) then (if neg then NInf else PInf)
  else
    match unsigned_decimal cs with
    | Some q => range (if neg then - q else q)%Q
    | None => NaN
    end.

(** The text between the white space. *)
Definition literal (cs : list ascii) : num :=
  match cs with
  | [] => Fin 0
  | "0" :: ("x" | "X") :: cs => integer_literal 16 cs
  | "0" :: ("o" | "O") :: cs => integer_literal 8 cs
  | "0" :: ("b" | "B") :: cs => integer_literal 2 cs
  | "+" :: cs => signed_decimal false cs
  | "-" :: cs => signed_decimal true cs
  | cs => signed_decimal false cs
  end.

Definition StringToNumber (s : string) : num :=
  literal (trim is_space (list_ascii_of_string s)).

(** The same for a string of any code units: a code unit of 256 or more
    that is not white space is in no numeric literal. *)
Definition StringToNumber_units (units : list N) : num :=
  let cs := trim is_space_unit units in
  if forallb (fun u => (u <? 256)%N) cs then literal (map ascii_of_N cs)
  else NaN.

Definition units_of (s : string) : list N :=
  map N_of_ascii (list_ascii_of_string s).

(** *** [Number(value)] *)
Definition Number (v : value) : num :=
  match v with
  | VUndefined => NaN
  | VNull => Fin 0
  | VBool b => if b then Fin 1 else Fin 0
  | VNum n => n
  | VStr s => StringToNumber s
  | VObj str => StringToNumber str
  end.

(** *** [Number(value)] for any value *)

(** OrdinaryToPrimitive with the hint number: [valueOf], then
    [toString]; a [TypeError] when neither gives a primitive. *)
Definition OrdinaryToPrimitive (o : object) : completion primitive :=
  match valueOf o with
  | Returns p => Normal p
  | Raises => Throw Raised
  | NotCallable | ReturnsObject =>
      match toString o with
      | Returns p => Normal p
      | Raises => Throw Raised
      | NotCallable | ReturnsObject => Throw TypeError
      end
  end.

Definition ToPrimitive (value : unknown) : completion primitive :=
  match value with
  | UPrim p => Normal p
  | UObj o =>
      match toPrimitive o with
      | None => OrdinaryToPrimitive o
      | Some (Returns p) => Normal p
      | Some Raises => Throw Raised
      | Some (NotCallable | ReturnsObject) => Throw TypeError
      end
  end.

(** [Number(value)] converts the primitive of the value: a Symbol has
    no number, a BigInt has the nearest one. *)
Definition Number_unknown (value : unknown) : completion num :=
  match ToPrimitive value with
  | Throw e => Throw e
  | Normal PUndefined => Normal NaN
  | Normal PNull => Normal (Fin 0)
  | Normal (PBool b) => Normal (if b then Fin 1 else Fin 0)
  | Normal (PNum n) => Normal n
  | Normal (PStr units) => Normal (StringToNumber_units units)
  | Normal PSymbol => Throw TypeError
  | Normal (PBigInt z) => Normal (range (inject_Z z))
  end.

(** A value of [value] among all values. *)
Definition of_value (v : value) : unknown :=
  match v with
  | VUndefined => UPrim PUndefined
  | VNull => UPrim PNull
  | VBool b => UPrim (PBool b)
  | VNum n => UPrim (PNum n)
  | VStr s => UPrim (PStr (units_of s))
  | VObj str =>
      UObj {| toPrimitive := None; valueOf := ReturnsObject;
              toString := Returns (PStr (units_of str)) |}
  end.

(** [a ?? b] *)
Definition coalesce (a b : value) : value :=
  match a with
  | VUndefined | VNull => b
  | _ => a
  end.

End JS.

Infix "??" := JS.coalesce (at level 50, left associativity).

(** ** Numeric coercion *)

Definition toNumber (v : value) : num :=
  let parsed := JS.Number v in
  if Num.isFinite parsed then parsed else Fin 0.

(** [toNumber] for any value: an exception of [Number(value)] leaves
    [toNumber], which has no handler.  On the values of [value] this is
    [toNumber] above. *)
Definition toNumber_unknown (value : unknown) : completion num :=
  match JS.Number_unknown value with
  | Normal parsed => Normal (if Num.isFinite parsed then parsed else Fin 0)
  | Throw e => Throw e
  end.

(** ** Rows, series and children *)

Abbreviation Datum := (gmap string value).

(** [row[key]]; a field the row does not have reads as [undefined]. *)
Definition get (row : Datum) (key : string) : value :=
  default VUndefined (row !! key).

Record SeriesProps : Type := {
  dataKey : string;
  stroke : option string;
  fill : option string;
  fillOpacity : option num;
  name : option string
}.

(** A React element, as [extractSeries] reads it: the [displayName] of
    its type ([None] for a host tag, a fragment or a component that
    declares none) and its props.  A [ReactNode] is an element, a text
    or number, an empty node ([null], [undefined] or a boolean) or an
    array of nodes. *)
Record ReactElement : Type := {
  displayName : option string;
  props : SeriesProps
}.

#[warnings="-register-all"] Inductive ReactNode : Type :=
| REmpty
| RText (s : string)
| RElement (e : ReactElement)
| RArray (items : list ReactNode).

(** [Children.forEach(children, fn)] walks nested arrays in order and
    calls [fn] on every node that is not an array; here [fn] updates
    the state [acc]. *)
Fixpoint Children_forEach {A : Type} (children : ReactNode)
    (fn : A -> ReactNode -> A) (acc : A) : A :=
  match children with
  | RArray items =>
      fold_left (fun acc child => Children_forEach child fn acc) items acc
  | child => fn acc child
  end.

(** Induction over children, with the hypothesis for every item of an
    array. *)
Fixpoint ReactNode_nested_ind (P : ReactNode -> Prop)
    (Hempty : P REmpty) (Htext : forall s, P (RText s))
    (Helement : forall e, P (RElement e))
    (Harray : forall items, Forall P items -> P (RArray items))
    (children : ReactNode) : P children :=
  match children with
  | REmpty => Hempty
  | RText s => Htext s
  | RElement e => Helement e
  | RArray items =>
      Harray items
        ((fix all (l : list ReactNode) : Forall P l :=
            match l with
            | [] => @List.Forall_nil _ P
            | child :: l' =>
                @List.Forall_cons _ P child l'
                  (ReactNode_nested_ind P Hempty Htext Helement Harray child)
                  (all l')
            end) items)
  end.

Definition isValidElement (child : ReactNode) : bool :=
  match child with RElement _ => true | _ => false end.

(** ** Series extractor *)

Definition extractSeries (children : ReactNode) (typeName : string)
    : list SeriesProps :=
  Children_forEach children
    (fun series child =>
       if negb (isValidElement child) then series
       else
         match child with
         | RElement e =>
             if decide (displayName e = Some typeName)
             then series ++ [props e]
             else series
         | _ => series
         end)
    [].

(** ** Axis tick selector *)

Section Labels.

(** [Number::toString] prints an integer below [10^21] as its decimal
    digits.  For every other finite number it prints the shortest
    digits that read back as the same binary64 value, which exact
    rationals do not determine: that part is a parameter. *)
Variable fraction_digits : Q -> string.

Definition is_integer (q : Q) : bool := Qeq_bool (inject_Z (Qfloor q)) q.

Definition Number_toString (n : num) : string :=
  match n with
  | NaN => "NaN"
  | PInf => "Infinity"
  | NInf => "-Infinity"
  | Fin q =>
      if is_integer q && negb (Qle_bool (inject_Z (10 ^ 21)) (Qabs q))
      then NilZero.string_of_int (Z.to_int (Qfloor q))
      else fraction_digits q
  end.

(** [String(value)] *)
Definition ToString (v : value) : string :=
  match v with
  | VUndefined => "undefined"
  | VNull => "null"
  | VBool b => if b then "true" else "false"
  | VNum n => Number_toString n
  | VStr s => s
  | VObj str => str
  end.

Definition getBucketLabel (row : Datum) (index : nat) : string :=
  let raw :=
    ToString (get row "label" ?? get row "bucket_start"
              ?? VNum (Num.of_nat index + Fin 1)) in
  if (10 <? String.length raw)%nat
  then String.append (String.substring 0 10 raw) "..."
  else raw.

End Labels.

Definition shouldRenderTick (index total : num) : bool :=
  if (total <=? Num.of_nat X_LABEL_LIMIT)%num then true
  else
    let step := Num.Math_ceil (total / Num.of_nat X_LABEL_LIMIT) in
    (Num.rem index step === Fin 0)%num || (index === total - Fin 1)%num.

(** The indices for which the callback of [data.map] in [renderAxes]
    returns a tick group rather than [null]. *)
Definition xTickIndices (data : list Datum) : list nat :=
  List.filter
    (fun index => shouldRenderTick (Num.of_nat index) (Num.of_nat (length data)))
    (seq 0 (length data)).

(** ** Domain calculator *)

(** The [maxValue] that [LineChart], [AreaChart] and [BarChart] each
    compute from the rows and their resolved series. *)
Definition maxValue (data : list Datum) (series : list SeriesProps) : num :=
  Num.Math_max
    (Fin 1 ::
     flat_map (fun row => map (fun s => toNumber (get row (dataKey s))) series)
       data).

(** ** Renderers *)

(** The markers of [LineChart]: one circle per series and row. *)
Definition LineChart (data : list Datum) (children : ReactNode)
    : list (list (num * num)) :=
  let lines := extractSeries children "RechartsLine" in
  let maxValue := maxValue data lines in
  map (fun line =>
         imap (fun index row =>
                 (chartX (Num.of_nat index) (Num.of_nat (length data)),
                  chartY (toNumber (get row (dataKey line))) maxValue))
           data)
    lines.

(** The padding record as the operand of an arithmetic operator: a
    plain object, which [toString] prints as [[object Object]]. *)
Definition as_value (o : Padding) : value := VObj "[object Object]".

Record Text : Type := { text_x : num; text_y : num; text_value : num }.

Record BarNode : Type := {
  rect_x : num;
  rect_y : num;
  rect_width : num;
  rect_height : num;
  label : option Text
}.

Definition groupWidth (data : list Datum) : num :=
  let usableWidth :=
    (CHART_WIDTH - left CHART_PADDING - right CHART_PADDING)%num in
  if (0 <? length data)%nat
  then (usableWidth / Num.of_nat (length data))%num
  else usableWidth.

Definition barWidth (data : list Datum) (bars : list SeriesProps) : num :=
  if (0 <? length bars)%nat
  then Num.Math_max
         [(groupWidth data / (Num.of_nat (length bars) + Fin 1))%num; Fin 8]
  else Fin 12.

(** The callback of [bars.map] inside [BarChart], for the row [row] at
    [dataIndex]; [maxValue], [groupWidth], [barWidth] and [baseline] are
    the constants of the enclosing render. *)
Definition barNode (maxValue groupWidth barWidth baseline : num)
    (dataIndex : nat) (row : Datum) (barIndex : nat) (bar : SeriesProps)
    : BarNode :=
  let value := toNumber (get row (dataKey bar)) in
  let height :=
    if (maxValue >? Fin 0)%num
    then ((CHART_HEIGHT - JS.Number (as_value CHART_PADDING) * Fin 2)
            * value / maxValue)%num
    else Fin 0 in
  let x :=
    (left CHART_PADDING + Num.of_nat dataIndex * groupWidth
       + Num.of_nat barIndex * (barWidth + Fin 4) + Fin 2)%num in
  let y := (baseline - height)%num in
  {| rect_x := x;
     rect_y := y;
     rect_width := barWidth;
     rect_height := Num.Math_max [height; Fin 0];
     label :=
       if (value >? Fin 0)%num
       then Some {| text_x := (x + barWidth / Fin 2)%num;
                    text_y := Num.Math_max
                                [(y - Fin 8)%num;
                                 (top CHART_PADDING + Fin 12)%num];
                    text_value := Num.Math_round value |}
       else None |}.

Definition BarChart (data : list Datum) (children : ReactNode)
    : list (list BarNode) :=
  let bars := extractSeries children "RechartsBar" in
  let maxValue := maxValue data bars in
  let groupWidth := groupWidth data in
  let barWidth := barWidth data bars in
  let baseline := (CHART_HEIGHT - bottom CHART_PADDING)%num in
  imap (fun dataIndex row =>
          imap (barNode maxValue groupWidth barWidth baseline dataIndex row)
            bars)
    data.

(** ** Binary64 *)

(** [chartY] once more, over the kernel's binary64 numbers: the same
    expression with every operation rounded as JavaScript rounds it. *)
Module B64.

Local Open Scope float_scope.

Definition CHART_HEIGHT : float := 320.
Definition top : float := 20.
Definition bottom : float := 52.

Definition chartY (value maxValue : float) : float :=
  let usableHeight := CHART_HEIGHT - top - bottom in
  if maxValue <=? 0 then CHART_HEIGHT - bottom
  else CHART_HEIGHT - bottom - (value / maxValue) * usableHeight.

End B64.

(** ** Reference definitions *)

(** The elements among the children, in the order they are declared. *)
Fixpoint declared (children : ReactNode) : list ReactElement :=
  match children with
  | RElement e => [e]
  | RArray items => flat_map declared items
  | _ => []
  end.

(** The series a renderer of category [typeName] is to resolve: the
    props of the declarations that carry its tag. *)
Definition matching (typeName : string) (children : ReactNode)
    : list SeriesProps :=
  map props
    (List.filter (fun e => bool_decide (displayName e = Some typeName))
       (declared children)).

(** [ceil (a / b)] on naturals. *)
Definition ceil_div (a b : nat) : nat := (a + b - 1) / b.

(** The height the specification gives a bar: the usable plot height
    times the value over the domain maximum. *)
Definition proportional_height (value domainMax : num) : num :=
  ((CHART_HEIGHT - top CHART_PADDING - bottom CHART_PADDING)
     * value / domainMax)%num.

(** The width the specification gives a bar: the group width, which is
    the usable plot width over the number of data points, over the
    number of series plus one, and at least 8. *)
Definition bar_width_formula (points seriesCount : nat) : num :=
  Num.Math_max
    [((CHART_WIDTH - left CHART_PADDING - right CHART_PADDING)
        / Num.of_nat points / (Num.of_nat seriesCount + Fin 1))%num;
     Fin 8].

(** A field is present when it is neither missing nor [null]. *)
Definition present (v : value) : bool :=
  match v with
  | VUndefined | VNull => false
  | _ => true
  end.

(** The label of a row before truncation: its [label] field, else its
    [bucket_start] field, else the decimal digits of [index + 1]. *)
Definition derived_label (fraction_digits : Q -> string) (row : Datum)
    (index : nat) : string :=
  if present (get row "label")
  then ToString fraction_digits (get row "label")
  else if present (get row "bucket_start")
  then ToString fraction_digits (get row "bucket_start")
  else NilZero.string_of_int (Z.to_int (Z.of_nat (index + 1))).

(** ** Axes, lines and areas *)

(** [a || b] on optional strings: a missing or empty string is falsy. *)
Definition truthy (a : option string) : bool :=
  match a with
  | Some (String _ _) => true
  | _ => false
  end.

Definition or_else (a b : option string) : option string :=
  if truthy a then a else b.

Infix "|||" := or_else (at level 50, left associativity).

Record YTick : Type := {
  grid_y : num;
  ylabel_x : num;
  ylabel_y : num;
  ylabel_text : num
}.

Record XTick : Type := {
  tick_x : num;
  tick_y2 : num;
  xlabel_y : num;
  xlabel_text : string
}.

(** What [renderAxes] draws: the two axis lines, one entry per value
    tick, and per row a tick group or [null]. *)
Record Axes : Type := {
  axis_baseline : num;
  axis_top : num;
  axis_left : num;
  axis_right : num;
  yTicks : list YTick;
  xTicks : list (option XTick)
}.

Record LineNode : Type := {
  polyline_points : string;
  polyline_stroke : option string;
  circles : list (num * num);
  circle_fill : option string
}.

Record AreaNode : Type := {
  polygon_points : string;
  polygon_fill : option string;
  polygon_fillOpacity : num;
  outline_points : string;
  outline_stroke : option string
}.

Section Scene.

Variable fraction_digits : Q -> string.

(** The template literal [`${x},${y}`]. *)
Definition point_text (p : num * num) : string :=
  String.append (Number_toString fraction_digits (fst p))
    (String.append "," (Number_toString fraction_digits (snd p))).

Definition linePoints (data : list Datum) (dataKey : string) (maxValue : num)
    : string :=
  String.concat " "
    (imap (fun index row =>
             point_text
               (chartX (Num.of_nat index) (Num.of_nat (length data)),
                chartY (toNumber (get row dataKey)) maxValue))
       data).

Definition renderAxes (data : list Datum) (maxValue : num) : Axes :=
  let baseline := (CHART_HEIGHT - bottom CHART_PADDING)%num in
  let top := top CHART_PADDING in
  let left := left CHART_PADDING in
  let right := (CHART_WIDTH - right CHART_PADDING)%num in
  let yTickCount := 4%nat in
  let yTickValues :=
    map (fun i =>
           (maxValue * (Num.of_nat yTickCount - Num.of_nat i)
              / Num.of_nat yTickCount)%num)
      (seq 0 (yTickCount + 1)) in
  {| axis_baseline := baseline;
     axis_top := top;
     axis_left := left;
     axis_right := right;
     yTicks :=
       map (fun value =>
              let y := chartY value maxValue in
              {| grid_y := y;
                 ylabel_x := (left - Fin 10)%num;
                 ylabel_y := (y + Fin 4)%num;
                 ylabel_text := Num.Math_round value |})
         yTickValues;
     xTicks :=
       imap (fun index row =>
               if negb (shouldRenderTick (Num.of_nat index)
                          (Num.of_nat (length data)))
               then None
               else
                 let x := chartX (Num.of_nat index) (Num.of_nat (length data)) in
                 Some {| tick_x := x;
                         tick_y2 := (baseline + Fin 6)%num;
                         xlabel_y := (baseline + Fin 24)%num;
                         xlabel_text := getBucketLabel fraction_digits row index |})
         data |}.

(** [LineChart] with its polylines: per series the stroked line and the
    markers. *)
Definition LineChart_scene (data : list Datum) (children : ReactNode)
    : list LineNode :=
  let lines := extractSeries children "RechartsLine" in
  let maxValue := maxValue data lines in
  map (fun line =>
         {| polyline_points := linePoints data (dataKey line) maxValue;
            polyline_stroke := stroke line ||| Some "#2563eb";
            circles :=
              imap (fun index row =>
                      (chartX (Num.of_nat index) (Num.of_nat (length data)),
                       chartY (toNumber (get row (dataKey line))) maxValue))
                data;
            circle_fill := stroke line ||| Some "#2563eb" |})
    lines.

Definition AreaChart (data : list Datum) (children : ReactNode)
    : list AreaNode :=
  let areas := extractSeries children "RechartsArea" in
  let maxValue := maxValue data areas in
  let baseline := (CHART_HEIGHT - bottom CHART_PADDING)%num in
  map (fun area =>
         let points := linePoints data (dataKey area) maxValue in
         let firstX := chartX (Fin 0) (Num.of_nat (length data)) in
         let lastX :=
           chartX
             (Num.Math_max [(Num.of_nat (length data) - Fin 1)%num; Fin 0])
             (Num.of_nat (length data)) in
         {| polygon_points :=
              String.append (point_text (firstX, baseline))
                (String.append " "
                   (String.append points
                      (String.append " " (point_text (lastX, baseline)))));
            polygon_fill := fill area ||| stroke area ||| Some "#3b82f6";
            polygon_fillOpacity :=
              match fillOpacity area with
              | Some opacity => opacity
              | None => Fin (1 # 4)
              end;
            outline_points := points;
            outline_stroke := stroke area ||| Some "#3b82f6" |})
    areas.

End Scene.

(** ** The insights page *)

(** The computations of [pages/Insights.tsx] on the bucketed metrics it
    hands to the charts.  A [Date] is its time value in milliseconds,
    [NaN] when the date is invalid. *)
Module Insights.

Inductive TimePreset : Type := Last24h | Last7d | Last30d | Custom.

Inductive InsightsGranularity : Type := hour | day.

Record InsightsTimeseriesBucket : Type := {
  bucket_start : string;
  requests : num;
  failed_requests : num;
  success_rate : num;
  prompt_tokens : num;
  completion_tokens : num;
  total_tokens : num;
  avg_latency_ms : num
}.

(** A row of [chartData]: the bucket, spread, with two more fields. *)
Record ChartBucket : Type := {
  bucket : InsightsTimeseriesBucket;
  label : string;
  successful_requests : num
}.

Record Range : Type := { range_start : num; range_end : num }.

(** [new Date(value)] for a number: the time value, clipped. *)
Definition Date_of (t : num) : num :=
  match t with
  | Fin q =>
      if Qle_bool (Qabs q) (inject_Z 8640000000000000)
      then Num.of_Z (Num.truncate q)
      else NaN
  | _ => NaN
  end.

Definition ms (hours : Z) : num := Num.of_Z (hours * 60 * 60 * 1000).

Section Page.

(** Parsing a date string and printing a date for the locale are the
    platform's. *)
Variable Date_parse : string -> num.
Variable formatDate : num -> InsightsGranularity -> string.

Definition parseLocalDateTimeInputValue (value : string) : option num :=
  let parsed := Date_parse value in
  if Num.isNaN parsed then None else Some parsed.

Definition formatBucketLabel (value : string)
    (granularity : InsightsGranularity) : string :=
  let date := Date_parse value in
  if Num.isNaN date then value else formatDate date granularity.

(** The [range] memo; [now] is the time value of [new Date()]. *)
Definition range (now : num) (timePreset : TimePreset)
    (customStart customEnd : string) : Range :=
  let end_ := now in
  match timePreset with
  | Last24h =>
      {| range_start := Date_of (end_ - ms 24)%num; range_end := end_ |}
  | Last7d =>
      {| range_start := Date_of (end_ - ms (7 * 24))%num; range_end := end_ |}
  | Last30d =>
      {| range_start := Date_of (end_ - ms (30 * 24))%num; range_end := end_ |}
  | Custom =>
      match parseLocalDateTimeInputValue customStart,
            parseLocalDateTimeInputValue customEnd with
      | Some parsedStart, Some parsedEnd =>
          if (parsedStart >=? parsedEnd)%num
          then {| range_start := Date_of (end_ - ms (7 * 24))%num;
                  range_end := end_ |}
          else {| range_start := parsedStart; range_end := parsedEnd |}
      | _, _ =>
          {| range_start := Date_of (end_ - ms (7 * 24))%num;
             range_end := end_ |}
      end
  end.

Definition granularity (r : Range) : InsightsGranularity :=
  let durationHours :=
    ((range_end r - range_start r) / Num.of_Z (1000 * 60 * 60))%num in
  if (durationHours <=? Fin 48)%num then hour else day.

(** [timeseries?.buckets || []], mapped. *)
Definition chartData (buckets : option (list InsightsTimeseriesBucket))
    (granularity : InsightsGranularity) : list ChartBucket :=
  map (fun bucket =>
         {| bucket := bucket;
            label := formatBucketLabel (bucket_start bucket) granularity;
            successful_requests :=
              Num.Math_max
                [(requests bucket - failed_requests bucket)%num; Fin 0] |})
    (default [] buckets).

End Page.

(** [chartData.slice(-12)] *)
Definition requestQualityData (chartData : list ChartBucket)
    : list ChartBucket :=
  drop (length chartData - 12) chartData.

(** The result of a [reduce] that starts from [chartData[0] || fallback]:
    a row, or the fallback object, whose label is ["-"] and whose number
    is 0. *)
Definition pick_label (acc : option ChartBucket) : string :=
  match acc with
  | Some item => label item
  | None => "-"
  end.

Definition pick_number (key : ChartBucket -> num) (acc : option ChartBucket)
    : num :=
  match acc with
  | Some item => key item
  | None => Fin 0
  end.

(** [chartData.reduce((sum, item) => sum + item.key, 0)].  The additions
    are those of [num]: exact, with no rounding and no overflow to
    [Infinity].  They are the additions of the page as long as every sum
    on the way is a whole number of at most [2^53] in size. *)
Definition sum_of (key : ChartBucket -> num) (chartData : list ChartBucket)
    : num :=
  fold_left (fun sum item => (sum + key item)%num) chartData (Fin 0).

Record ChartTotals : Type := {
  totalRequests : num;
  totalSuccess : num;
  totalFailed : num;
  totalPrompt : num;
  totalCompletion : num;
  avgReqPerBucket : num;
  avgLatencyAcrossBuckets : num;
  peakRequestsBucket : option ChartBucket;
  slowestLatencyBucket : option ChartBucket;
  fastestLatencyBucket : option ChartBucket
}.

Definition chartTotals (chartData : list ChartBucket) : ChartTotals :=
  let totalBuckets :=
    if (length chartData =? 0)%nat then Fin 1
    else Num.of_nat (length chartData) in
  let totalRequests := sum_of (fun item => requests (bucket item)) chartData in
  let totalSuccess := sum_of successful_requests chartData in
  let totalFailed :=
    sum_of (fun item => failed_requests (bucket item)) chartData in
  let totalPrompt := sum_of (fun item => prompt_tokens (bucket item)) chartData in
  let totalCompletion :=
    sum_of (fun item => completion_tokens (bucket item)) chartData in
  let avgReqPerBucket := (totalRequests / totalBuckets)%num in
  let avgLatencyAcrossBuckets :=
    (sum_of (fun item => avg_latency_ms (bucket item)) chartData
       / totalBuckets)%num in
  let peakRequestsBucket :=
    fold_left
      (fun acc item =>
         if (requests (bucket item)
             >? pick_number (fun b => requests (bucket b)) acc)%num
         then Some item else acc)
      chartData (head chartData) in
  let slowestLatencyBucket :=
    fold_left
      (fun acc item =>
         if (avg_latency_ms (bucket item)
             >? pick_number (fun b => avg_latency_ms (bucket b)) acc)%num
         then Some item else acc)
      chartData (head chartData) in
  let fastestLatencyBucket :=
    fold_left
      (fun acc item =>
         if (avg_latency_ms (bucket item)
             <? pick_number (fun b => avg_latency_ms (bucket b)) acc)%num
         then Some item else acc)
      chartData (head chartData) in
  {| totalRequests := totalRequests;
     totalSuccess := totalSuccess;
     totalFailed := totalFailed;
     totalPrompt := totalPrompt;
     totalCompletion := totalCompletion;
     avgReqPerBucket := avgReqPerBucket;
     avgLatencyAcrossBuckets := avgLatencyAcrossBuckets;
     peakRequestsBucket := peakRequestsBucket;
     slowestLatencyBucket := slowestLatencyBucket;
     fastestLatencyBucket := fastestLatencyBucket |}.

(** [Math.max(1, Math.ceil(totalItems / pageSize))] and the offset of a
    page in the logs query. *)
Definition totalPages (totalItems pageSize : num) : num :=
  Num.Math_max [Fin 1; Num.Math_ceil (totalItems / pageSize)%num].

Definition offset (page pageSize : num) : num :=
  ((page - Fin 1) * pageSize)%num.

(** [RequestQualityGraph]: the scale, and the height in percent of the
    bar of one count. *)
Definition maxBucketValue (data : list ChartBucket) : num :=
  Num.Math_max
    (Fin 1 ::
     map (fun item =>
            Num.Math_max
              [successful_requests item; failed_requests (bucket item)])
       data).

Definition barPercent (count maxBucketValue : num) : num :=
  Num.Math_max
    [(count / maxBucketValue * Fin 100)%num;
     if (count >? Fin 0)%num then Fin 3 else Fin 0].

Definition RequestQualityGraph (data : list ChartBucket)
    : list (num * num) :=
  let maxBucketValue := maxBucketValue data in
  map (fun item =>
         (barPercent (successful_requests item) maxBucketValue,
          barPercent (failed_requests (bucket item)) maxBucketValue))
    data.

(** Sample buckets. *)
Definition sample_bucket (start : string) (reqs failed latency : Q)
    : ChartBucket :=
  {| bucket :=
       {| bucket_start := start; requests := Fin reqs;
          failed_requests := Fin failed; success_rate := Fin 1;
          prompt_tokens := Fin 0; completion_tokens := Fin 0;
          total_tokens := Fin 0; avg_latency_ms := Fin latency |};
     label := start;
     successful_requests := Fin (reqs - failed) |}.

Definition sample_chartData : list ChartBucket :=
  [sample_bucket "a" 3 0 40; sample_bucket "b" 9 1 25;
   sample_bucket "c" 9 0 70; sample_bucket "d" 2 2 25].

End Insights.

(** ** Sample inputs *)

Definition series_of (key : string) : SeriesProps :=
  {| dataKey := key; stroke := None; fill := None;
     fillOpacity := None; name := None |}.

(** [<Bar dataKey=key />], [<Line dataKey=key />] and an [<XAxis />]. *)
Definition Bar (key : string) : ReactNode :=
  RElement {| displayName := Some "RechartsBar"; props := series_of key |}.

Definition Line (key : string) : ReactNode :=
  RElement {| displayName := Some "RechartsLine"; props := series_of key |}.

Definition XAxis : ReactNode :=
  RElement {| displayName := None; props := series_of "label" |}.

(** [<Area dataKey=key stroke=colour />] *)
Definition Area (key colour : string) : ReactNode :=
  RElement {| displayName := Some "RechartsArea";
              props := {| dataKey := key; stroke := Some colour;
                          fill := None; fillOpacity := None;
                          name := None |} |}.

Definition row_of (lbl : string) (v : value) : Datum :=
  {[ "label" := VStr lbl; "v" := v ]}.

Definition two_days : list Datum :=
  [row_of "Mon" (VNum (Fin 10)); row_of "Tue" (VNum (Fin 20))].

(** The object [JSON.parse] gives for the text [{ toString: 1 }] with
    its key quoted: [valueOf] is inherited and returns the object, and
    the [toString] the conversion finds is the number 1. *)
Definition toString_1 : object :=
  {| toPrimitive := None; valueOf := ReturnsObject; toString := NotCallable |}.

(** * Properties *)

(** ** Arithmetic of finite numbers *)

Section NumFacts.

Local Open Scope Q_scope.

Lemma Fin_Qred (x y : Q) : x == y -> Fin (Qred x) = Fin (Qred y).
Proof. intros H. f_equal. now apply Qred_complete. Qed.

Lemma Fin_Qred_const (x c : Q) : x == c -> Qred c = c -> Fin (Qred x) = Fin c.
Proof. intros H Hc. rewrite <- Hc. now apply Fin_Qred. Qed.

Lemma leb_Fin (x y : Q) : (Fin x <=? Fin y)%num = true <-> x <= y.
Proof. apply Qle_bool_iff. Qed.

Lemma leb_Fin_false (x y : Q) : (Fin x <=? Fin y)%num = false <-> y < x.
Proof.
  unfold Num.leb. rewrite <- not_true_iff_false, Qle_bool_iff.
  split; [apply Qnot_le_lt | apply Qlt_not_le].
Qed.

Lemma ltb_Fin (x y : Q) : (Fin x <? Fin y)%num = true <-> x < y.
Proof.
  unfold Num.ltb. rewrite negb_true_iff, <- not_true_iff_false, Qle_bool_iff.
  split; [apply Qnot_le_lt | apply Qlt_not_le].
Qed.

Lemma div_Fin (x y : Q) : ~ y == 0 -> (Fin x / Fin y)%num = Fin (Qred (x / y)).
Proof.
  intros Hy. unfold Num.div.
  destruct (Qeq_bool y 0) eqn:E; [|reflexivity].
  now apply Qeq_bool_iff in E.
Qed.

Lemma chartX_Fin (index total : Q) :
  1 < total ->
  chartX (Fin index) (Fin total) = Fin (Qred (56 + index / (total - 1) * 884)).
Proof.
  intros Ht. unfold chartX.
  assert (E : (Fin total <=? Fin 1)%num = false) by now apply leb_Fin_false.
  rewrite E.
  change (CHART_WIDTH - left CHART_PADDING - right CHART_PADDING)%num with (Fin 884).
  change (left CHART_PADDING) with (Fin 56).
  change (Fin total - Fin 1)%num with (Fin (Qred (total - 1))).
  rewrite div_Fin by (rewrite Qred_correct; lra).
  cbn [Num.mul Num.add]. apply Fin_Qred.
  now rewrite !Qred_correct.
Qed.

Lemma chartY_Fin (value maxValue : Q) :
  0 < maxValue ->
  chartY (Fin value) (Fin maxValue) = Fin (Qred (268 - value / maxValue * 248)).
Proof.
  intros Hm. unfold chartY.
  assert (E : (Fin maxValue <=? Fin 0)%num = false) by now apply leb_Fin_false.
  rewrite E.
  change (CHART_HEIGHT - top CHART_PADDING - bottom CHART_PADDING)%num with (Fin 248).
  change (CHART_HEIGHT - bottom CHART_PADDING)%num with (Fin 268).
  rewrite div_Fin by lra.
  cbn [Num.mul Num.sub]. apply Fin_Qred.
  now rewrite !Qred_correct.
Qed.

Lemma Qdiv_le_mono (a b c : Q) : 0 < c -> a <= b -> a / c <= b / c.
Proof.
  intros Hc Hab. unfold Qdiv. apply Qmult_le_compat_r; [exact Hab|].
  now apply Qlt_le_weak, Qinv_lt_0_compat.
Qed.

Lemma Qdiv_neg (a c : Q) : 0 < c -> a < 0 -> a / c < 0.
Proof.
  intros Hc Ha. apply Qlt_shift_div_r; [exact Hc | lra].
Qed.

End NumFacts.

(** ** Coordinate mapper *)

Section CoordinateMapper.

Local Open Scope Q_scope.

(** C4.  For a point count above 1, [chartX] does not decrease when the
    index grows, starts at the left padding 56 and ends, at the last
    index, on the right edge 940; for a count of at most 1 it is the left
    padding.  For a positive domain maximum, [chartY] does not increase
    when the value grows and maps 0 to the baseline 268; for a domain
    maximum of at most 0 it is the baseline. *)
Theorem coordinate_mapper :
  (forall total i j : Q, 1 < total -> i <= j ->
     (chartX (Fin i) (Fin total) <=? chartX (Fin j) (Fin total))%num = true) /\
  (forall total : Q, 1 < total -> chartX (Fin 0) (Fin total) = Fin 56) /\
  (forall total : Q, 1 < total ->
     chartX (Fin total - Fin 1)%num (Fin total) = Fin 940) /\
  (forall index total : num,
     (total <=? Fin 1)%num = true -> chartX index total = Fin 56) /\
  (forall domainMax v w : Q, 0 < domainMax -> v <= w ->
     (chartY (Fin w) (Fin domainMax) <=? chartY (Fin v) (Fin domainMax))%num
     = true) /\
  (forall domainMax : Q, 0 < domainMax ->
     chartY (Fin 0) (Fin domainMax) = Fin 268) /\
  (forall value domainMax : num,
     (domainMax <=? Fin 0)%num = true -> chartY value domainMax = Fin 268).
Proof.
  repeat split.
  - intros total i j Ht Hij. rewrite !chartX_Fin by exact Ht.
    apply leb_Fin. rewrite !Qred_correct.
    assert (H : i / (total - 1) <= j / (total - 1))
      by (apply Qdiv_le_mono; [lra | exact Hij]).
    nra.
  - intros total Ht. rewrite chartX_Fin by exact Ht.
    apply Fin_Qred_const; [|reflexivity]. field. lra.
  - intros total Ht.
    change (Fin total - Fin 1)%num with (Fin (Qred (total - 1))).
    rewrite chartX_Fin by exact Ht.
    apply Fin_Qred_const; [|reflexivity]. rewrite Qred_correct. field. lra.
  - intros index total Ht. unfold chartX. now rewrite Ht.
  - intros m v w Hm Hvw. rewrite !chartY_Fin by exact Hm.
    apply leb_Fin. rewrite !Qred_correct.
    assert (H : v / m <= w / m) by (apply Qdiv_le_mono; assumption).
    nra.
  - intros m Hm. rewrite chartY_Fin by exact Hm.
    apply Fin_Qred_const; [|reflexivity]. field. lra.
  - intros value m Hm. unfold chartY. now rewrite Hm.
Qed.

Example chartX_chartY_of_two_days :
  chartX (Fin 0) (Fin 2) = Fin 56 /\ chartX (Fin 1) (Fin 2) = Fin 940 /\
  chartY (Fin 20) (Fin 20) = Fin 20 /\ chartY (Fin 0) (Fin 20) = Fin 268.
Proof. repeat split. Qed.

Example line_markers_of_two_days :
  LineChart two_days (RArray [XAxis; Line "v"])
  = [[(Fin 56, Fin 144); (Fin 940, Fin 20)]].
Proof. reflexivity. Qed.

End CoordinateMapper.

Lemma coordinate_mapper_witness :
  (chartX (Fin 1) (Fin 5) <=? chartX (Fin 3) (Fin 5))%num = true /\
  chartX (Fin 0) (Fin 5) = Fin 56 /\
  chartX (Fin 5 - Fin 1)%num (Fin 5) = Fin 940 /\
  chartX (Fin 0) (Fin 1) = Fin 56 /\
  (chartY (Fin 7) (Fin 20) <=? chartY (Fin 3) (Fin 20))%num = true /\
  chartY (Fin 0) (Fin 20) = Fin 268 /\
  chartY (Fin 3) (Fin 0) = Fin 268.
Proof.
  pose proof coordinate_mapper as (X1 & X2 & X3 & X4 & Y1 & Y2 & Y3).
  split; [apply X1; [reflexivity | discriminate]|].
  split; [apply X2; reflexivity|].
  split; [apply X3; reflexivity|].
  split; [apply X4; reflexivity|].
  split; [apply Y1; [reflexivity | discriminate]|].
  split; [apply Y2; reflexivity|].
  apply Y3; reflexivity.
Defined.

(** ** Numeric coercion *)

Section Coercion.

Local Open Scope Q_scope.

Lemma toNumber_finite (v : value) : Num.isFinite (toNumber v) = true.
Proof.
  unfold toNumber. now destruct (Num.isFinite (JS.Number v)) eqn:E.
Qed.

(** *** Strings as code units *)

Lemma drop_space_map {A B : Type} (f : A -> B) (space : B -> bool)
    (cs : list A) :
  JS.drop_space space (map f cs)
  = map f (JS.drop_space (fun c => space (f c)) cs).
Proof.
  induction cs as [|c cs IH]; [reflexivity|].
  cbn [map JS.drop_space]. now destruct (space (f c)).
Qed.

Lemma trim_map {A B : Type} (f : A -> B) (space : B -> bool) (cs : list A) :
  JS.trim space (map f cs) = map f (JS.trim (fun c => space (f c)) cs).
Proof.
  unfold JS.trim.
  now rewrite drop_space_map, <- List.map_rev, drop_space_map, List.map_rev.
Qed.

(** On a [string], the conversion of its code units is [StringToNumber]. *)
Lemma StringToNumber_units_of (s : string) :
  JS.StringToNumber_units (JS.units_of s) = JS.StringToNumber s.
Proof.
  unfold JS.StringToNumber_units, JS.units_of, JS.StringToNumber.
  rewrite trim_map. fold JS.is_space.
  set (cs := JS.trim JS.is_space (list_ascii_of_string s)).
  replace (forallb _ _) with true.
  - f_equal. rewrite List.map_map. rewrite <- (List.map_id cs) at 2.
    apply List.map_ext. intros c. apply ascii_N_embedding.
  - symmetry. apply forallb_forall. intros u Hu.
    apply List.in_map_iff in Hu as (c & <- & _).
    apply N.ltb_lt, N_ascii_bounded.
Qed.

Lemma Number_of_value (v : value) :
  JS.Number_unknown (JS.of_value v) = Normal (JS.Number v).
Proof.
  destruct v; try reflexivity; cbn; now rewrite StringToNumber_units_of.
Qed.

Lemma toNumber_of_value (v : value) :
  toNumber_unknown (JS.of_value v) = Normal (toNumber v).
Proof. unfold toNumber_unknown. now rewrite Number_of_value. Qed.

Lemma coerced_finite (parsed : num) :
  exists q : Q, (if Num.isFinite parsed then parsed else Fin 0) = Fin q.
Proof. destruct parsed as [q| | |]; cbn; eauto. Qed.

(** C5, as amended.  [toNumber] returns a finite number whenever
    [Number(value)] returns: the converted number when that is finite
    and 0 otherwise, so 0 for [NaN], the infinities, [undefined] and
    every string that is no numeric literal, as for [null].  It is not
    defined on every value: it throws exactly when [Number(value)]
    does, which is a [TypeError] for a Symbol and for an object neither
    of whose [valueOf] and [toString] gives a primitive; every other
    primitive, and every value of a row as the charts read it, is
    coerced. *)
Theorem toNumber_finite_unless_thrown :
  (forall (value : unknown) (parsed : num),
     JS.Number_unknown value = Normal parsed ->
     exists result : num,
       toNumber_unknown value = Normal result /\
       Num.isFinite result = true /\
       (Num.isFinite parsed = true -> result = parsed) /\
       (Num.isFinite parsed = false -> result = Fin 0)) /\
  (forall (value : unknown) (e : exception),
     toNumber_unknown value = Throw e <-> JS.Number_unknown value = Throw e) /\
  (forall p : primitive,
     match p with
     | PSymbol => toNumber_unknown (UPrim p) = Throw TypeError
     | _ => exists q : Q, toNumber_unknown (UPrim p) = Normal (Fin q)
     end) /\
  (forall o : object,
     toNumber_unknown (UObj o)
     = match JS.ToPrimitive (UObj o) with
       | Normal p => toNumber_unknown (UPrim p)
       | Throw e => Throw e
       end) /\
  (forall o : object,
     toPrimitive o = None ->
     valueOf o = NotCallable \/ valueOf o = ReturnsObject ->
     toString o = NotCallable \/ toString o = ReturnsObject ->
     toNumber_unknown (UObj o) = Throw TypeError) /\
  (forall v : value,
     toNumber_unknown (JS.of_value v) = Normal (toNumber v) /\
     Num.isFinite (toNumber v) = true) /\
  toNumber_unknown (UPrim (PNum NaN)) = Normal (Fin 0) /\
  toNumber_unknown (UPrim (PNum PInf)) = Normal (Fin 0) /\
  toNumber_unknown (UPrim (PNum NInf)) = Normal (Fin 0) /\
  toNumber_unknown (UPrim PUndefined) = Normal (Fin 0) /\
  toNumber_unknown (UPrim PNull) = Normal (Fin 0) /\
  (forall units : list N,
     JS.StringToNumber_units units = NaN ->
     toNumber_unknown (UPrim (PStr units)) = Normal (Fin 0)).
Proof.
  split.
  { intros value parsed H. unfold toNumber_unknown. rewrite H.
    eexists. split; [reflexivity|].
    destruct (Num.isFinite parsed) eqn:E; repeat split;
      try reflexivity; try exact E; discriminate. }
  split.
  { intros value e. unfold toNumber_unknown.
    destruct (JS.Number_unknown value); split; congruence. }
  split.
  { intros p. unfold toNumber_unknown, JS.Number_unknown. cbn [JS.ToPrimitive].
    destruct p; try reflexivity; cbv beta iota;
      match goal with
      | |- exists q : Q, Normal (if Num.isFinite ?n then _ else _) = _ =>
          destruct (coerced_finite n) as [q Hq]; exists q; now rewrite Hq
      end. }
  split.
  { intros o. unfold toNumber_unknown, JS.Number_unknown.
    destruct (JS.ToPrimitive (UObj o)) as [p|e]; reflexivity. }
  split.
  { intros o Hp Hv Hs. unfold toNumber_unknown, JS.Number_unknown.
    cbn [JS.ToPrimitive]. rewrite Hp. unfold JS.OrdinaryToPrimitive.
    destruct Hv as [-> | ->], Hs as [-> | ->]; reflexivity. }
  split.
  { intros v. split; [apply toNumber_of_value | apply toNumber_finite]. }
  do 5 (split; [reflexivity|]).
  intros units H. unfold toNumber_unknown, JS.Number_unknown.
  cbn [JS.ToPrimitive]. now rewrite H.
Qed.

Lemma toNumber_finite_unless_thrown_witness :
  toNumber_unknown (UPrim (PStr (JS.units_of "1e400"))) = Normal (Fin 0) /\
  toNumber_unknown (UPrim (PStr [160; 52; 50; 12288]%N)) = Normal (Fin 42) /\
  toNumber_unknown (UPrim (PStr (JS.units_of "N/A"))) = Normal (Fin 0) /\
  toNumber_unknown (UPrim (PBigInt 10)) = Normal (Fin 10).
Proof.
  pose proof toNumber_finite_unless_thrown
    as (H & _ & _ & _ & _ & _ & _ & _ & _ & _ & _ & Hs).
  destruct (H (UPrim (PStr (JS.units_of "1e400"))) PInf eq_refl)
    as (r1 & E1 & _ & _ & Z1).
  destruct (H (UPrim (PStr [160; 52; 50; 12288]%N)) (Fin 42) eq_refl)
    as (r2 & E2 & _ & F2 & _).
  destruct (H (UPrim (PBigInt 10)) (Fin 10) eq_refl)
    as (r3 & E3 & _ & F3 & _).
  split; [rewrite E1, (Z1 eq_refl); reflexivity|].
  split; [rewrite E2, (F2 eq_refl); reflexivity|].
  split; [apply Hs; reflexivity|].
  rewrite E3, (F3 eq_refl); reflexivity.
Defined.

(** C5 as it stands does not hold: [toNumber] throws a [TypeError] on
    the object parsed from JSON whose [toString] is a number, and on a
    Symbol. *)
Lemma toNumber_throws :
  JS.ToPrimitive (UObj toString_1) = Throw TypeError /\
  toNumber_unknown (UObj toString_1) = Throw TypeError /\
  toNumber_unknown (UPrim PSymbol) = Throw TypeError.
Proof. repeat split. Qed.

Example toNumber_white_space :
  toNumber (VStr (String (ascii_of_N 160) "42")) = Fin 42 /\
  toNumber_unknown (UPrim (PStr [65279; 12288; 52; 50; 8233]%N))
  = Normal (Fin 42) /\
  toNumber_unknown (UPrim (PStr [52; 8203; 50]%N)) = Normal (Fin 0).
Proof. repeat split. Qed.

Example toNumber_samples :
  map toNumber
    [VBool true; VStr ""; VStr " 42 "; VStr "0x1F"; VStr "-Infinity";
     VStr "12px"; VObj "[object Object]"; VObj "7"; VNum (Fin (-5))]
  = [Fin 1; Fin 0; Fin 42; Fin 31; Fin 0; Fin 0; Fin 0; Fin 7; Fin (-5)].
Proof. reflexivity. Qed.

Lemma toNumber_Fin (v : value) (q : Q) :
  JS.Number v = Fin q -> toNumber v = Fin q.
Proof. intros H. unfold toNumber. now rewrite H. Qed.

(** C10, as amended.  Numeric coercion returns a negative finite value
    unchanged, and in exact arithmetic [chartY] puts every negative value
    strictly below the baseline 268 when the domain maximum is positive. *)
Theorem negative_below_baseline :
  (forall (v : value) (q : Q),
     JS.Number v = Fin q -> q < 0 -> toNumber v = Fin q) /\
  (forall value domainMax : Q, value < 0 -> 0 < domainMax ->
     (chartY (Fin value) (Fin domainMax) >? Fin 268)%num = true).
Proof.
  split.
  - intros v q Hv _. now apply toNumber_Fin.
  - intros v m Hv Hm. rewrite chartY_Fin by exact Hm.
    apply ltb_Fin. rewrite Qred_correct.
    pose proof (Qdiv_neg v m Hm Hv). nra.
Qed.

Lemma negative_below_baseline_witness :
  toNumber (VStr "-5") = Fin (-5) /\
  (chartY (Fin (-5)) (Fin 20) >? Fin 268)%num = true.
Proof.
  pose proof negative_below_baseline as (H1 & H2).
  split; [apply H1 | apply H2]; reflexivity.
Defined.

(** C10, in binary64.  Under rounding the offset of a small negative
    value is lost: [-2^-60] over a domain maximum of 1 lands on the
    baseline itself. *)
Lemma negative_rounds_onto_baseline :
  PrimFloat.ltb (-0x1p-60)%float 0%float = true /\
  PrimFloat.ltb 0%float 1%float = true /\
  B64.chartY (-0x1p-60)%float 1%float = 268%float /\
  PrimFloat.ltb 268%float (B64.chartY (-0x1p-60)%float 1%float) = false.
Proof. repeat split. Qed.

Example negative_five_in_binary64 :
  B64.chartY (-5)%float 20%float = 330%float /\
  B64.chartY 0%float 20%float = 268%float /\
  B64.chartY 20%float 20%float = 20%float.
Proof. repeat split. Qed.

End Coercion.

(** ** Domain calculator *)

Section Domain.

Local Open Scope Q_scope.

Lemma max2_Fin (x y : Q) :
  Num.max2 (Fin x) (Fin y) = if Qle_bool y x then Fin x else Fin y.
Proof. unfold Num.max2, Num.ltb. now destruct (Qle_bool y x). Qed.

(** Folding [Math.max] over finite numbers from a finite start reaches a
    finite number, which bounds the start and every argument and is one
    of them. *)
Lemma fold_max2_Fin (l : list num) :
  Forall (fun n => Num.isFinite n = true) l ->
  forall a : Q,
  exists m : Q,
    fold_left Num.max2 l (Fin a) = Fin m /\
    a <= m /\
    Forall (fun n => (n <=? Fin m)%num = true) l /\
    (Fin m = Fin a \/ In (Fin m) l).
Proof.
  induction 1 as [|x l Hx Hl IH]; intros a.
  - exists a. repeat split; [apply Qle_refl | constructor | now left].
  - destruct x as [q| | |]; try discriminate. cbn [fold_left].
    rewrite max2_Fin. destruct (Qle_bool q a) eqn:E.
    + apply Qle_bool_iff in E.
      destruct (IH a) as (m & Hm & Ham & Hall & Hin).
      exists m. split; [exact Hm|]. split; [exact Ham|]. split.
      * constructor; [|exact Hall]. apply leb_Fin. lra.
      * destruct Hin as [Hin|Hin]; [now left | right; now right].
    + assert (Haq : a < q).
      { apply Qnot_le_lt. intros H. apply Qle_bool_iff in H. congruence. }
      destruct (IH q) as (m & Hm & Hqm & Hall & Hin).
      exists m. split; [exact Hm|]. split; [lra|]. split.
      * constructor; [|exact Hall]. now apply leb_Fin.
      * right. destruct Hin as [Hin|Hin]; [left; now symmetry | now right].
Qed.

Lemma coerced_values_finite (data : list Datum) (series : list SeriesProps) :
  Forall (fun n => Num.isFinite n = true)
    (flat_map (fun row => map (fun s => toNumber (get row (dataKey s))) series)
       data).
Proof.
  apply List.Forall_forall. intros n Hn.
  apply in_flat_map in Hn as (row & _ & Hn).
  apply in_map_iff in Hn as (s & <- & _).
  apply toNumber_finite.
Qed.

(** C3.  The vertical domain is finite and at least 1; it bounds the
    coerced value of every series field of every row and is either 1 or
    one of those values, hence their maximum floored at 1; without rows
    or without series it is exactly 1. *)
Theorem domain_is_floored_maximum :
  forall (data : list Datum) (series : list SeriesProps),
    Num.isFinite (maxValue data series) = true /\
    (Fin 1 <=? maxValue data series)%num = true /\
    (forall row s, In row data -> In s series ->
       (toNumber (get row (dataKey s)) <=? maxValue data series)%num = true) /\
    (maxValue data series = Fin 1 \/
     exists row s, In row data /\ In s series /\
       maxValue data series = toNumber (get row (dataKey s))) /\
    (data = [] \/ series = [] -> maxValue data series = Fin 1).
Proof.
  intros data series. unfold maxValue, Num.Math_max. cbn [fold_left].
  change (Num.max2 NInf (Fin 1)) with (Fin 1).
  destruct (fold_max2_Fin _ (coerced_values_finite data series) 1)
    as (m & Hm & H1m & Hall & Hin).
  rewrite Hm. split; [reflexivity|]. split; [now apply leb_Fin|]. split; [|split].
  - intros row s Hrow Hs. rewrite List.Forall_forall in Hall. apply Hall.
    apply in_flat_map. exists row. split; [exact Hrow|].
    apply in_map_iff. now exists s.
  - destruct Hin as [Hin|Hin]; [now left | right].
    apply in_flat_map in Hin as (row & Hrow & Hin).
    apply in_map_iff in Hin as (s & Hs & Hin).
    exists row, s. now rewrite Hs.
  - assert (E : flat_map
                  (fun row => map (fun s => toNumber (get row (dataKey s))) series)
                  data = [] -> Fin m = Fin 1).
    { intros E. rewrite E in Hm. cbn in Hm. now symmetry. }
    intros [-> | ->]; apply E; [reflexivity|].
    clear. induction data as [|row data IH]; [reflexivity | exact IH].
Qed.

Lemma domain_is_floored_maximum_witness :
  (toNumber (get (row_of "Tue" (VNum (Fin 20))) (dataKey (series_of "v"))) <=?
   maxValue two_days [series_of "v"])%num = true /\
  maxValue [] [series_of "v"] = Fin 1.
Proof.
  split.
  - pose proof (domain_is_floored_maximum two_days [series_of "v"])
      as (_ & _ & H & _).
    apply H; [right; left; reflexivity | left; reflexivity].
  - pose proof (domain_is_floored_maximum [] [series_of "v"])
      as (_ & _ & _ & _ & H).
    apply H. left. reflexivity.
Defined.

Example domain_of_two_days : maxValue two_days [series_of "v"] = Fin 20.
Proof. reflexivity. Qed.

End Domain.

(** ** Axis tick selector *)

Section Ticks.

Local Open Scope Q_scope.

(** *** Indices and lengths as numbers *)

Lemma Qred_inject_Z (z : Z) : Qred (inject_Z z) = inject_Z z.
Proof. apply Qred_identity. simpl. apply Z.gcd_1_r. Qed.

Lemma Fin_Qred_Z (x : Q) (z : Z) : x == inject_Z z -> Fin (Qred x) = Num.of_Z z.
Proof. intros H. unfold Num.of_Z. rewrite <- Qred_inject_Z. now apply Fin_Qred. Qed.

Lemma of_nat_leb (a b : nat) : (Num.of_nat a <=? Num.of_nat b)%num = (a <=? b)%nat.
Proof.
  apply eq_true_iff_eq. unfold Num.of_nat, Num.of_Z. rewrite leb_Fin, Nat.leb_le.
  rewrite <- Zle_Qle. lia.
Qed.

Lemma ceil_of_nat_div (a b : nat) :
  (0 < b)%nat ->
  Num.Math_ceil (Num.of_nat a / Num.of_nat b) = Num.of_nat (ceil_div a b).
Proof.
  intros Hb. unfold Num.of_nat at 1 2, Num.of_Z.
  rewrite div_Fin.
  2:{ change 0 with (inject_Z 0). rewrite inject_Z_injective. lia. }
  unfold Num.Math_ceil, Num.of_nat. f_equal. rewrite Qred_correct.
  unfold Qceiling.
  setoid_replace (- (inject_Z (Z.of_nat a) / inject_Z (Z.of_nat b)))
    with (inject_Z (- Z.of_nat a) / inject_Z (Z.of_nat b)) using relation Qeq.
  2:{ rewrite inject_Z_opp. field. change 0 with (inject_Z 0). rewrite inject_Z_injective. lia. }
  rewrite <- Zdiv_Qdiv. unfold ceil_div.
  rewrite Nat2Z.inj_div.
  zify. Z.to_euclidean_division_equations. nia.
Qed.

Lemma inject_Z_nonzero (z : Z) : z <> 0%Z -> ~ inject_Z z == 0.
Proof. intros H. change 0 with (inject_Z 0). now rewrite inject_Z_injective. Qed.

Lemma eqb_Fin (x y : Q) : (Fin x === Fin y)%num = true <-> x == y.
Proof. apply Qeq_bool_iff. Qed.

Lemma rem_of_nat (i s : nat) :
  (0 < s)%nat -> Num.rem (Num.of_nat i) (Num.of_nat s) = Num.of_nat (i mod s).
Proof.
  intros Hs. unfold Num.of_nat at 1 2, Num.of_Z, Num.rem.
  destruct (Qeq_bool (inject_Z (Z.of_nat s)) 0) eqn:E.
  { apply Qeq_bool_iff in E. apply inject_Z_nonzero in E; [easy | lia]. }
  assert (T : Num.truncate (inject_Z (Z.of_nat i) / inject_Z (Z.of_nat s))
              = (Z.of_nat i / Z.of_nat s)%Z).
  { unfold Num.truncate. rewrite <- Zdiv_Qdiv.
    destruct (Qle_bool 0 _) eqn:L; [reflexivity|].
    exfalso. apply not_true_iff_false in L. apply L, Qle_bool_iff.
    apply Qle_shift_div_l.
    - change 0 with (inject_Z 0). rewrite <- Zlt_Qlt. lia.
    - rewrite Qmult_0_l. change 0 with (inject_Z 0). rewrite <- Zle_Qle. lia. }
  rewrite T. apply Fin_Qred_Z.
  rewrite Nat2Z.inj_mod, Z.mod_eq by lia.
  unfold Z.sub. now rewrite inject_Z_plus, inject_Z_opp, inject_Z_mult.
Qed.

Lemma eqb_of_nat (a b : nat) : (Num.of_nat a === Num.of_nat b)%num = (a =? b)%nat.
Proof.
  apply eq_true_iff_eq. unfold Num.of_nat, Num.of_Z.
  rewrite eqb_Fin, Nat.eqb_eq, inject_Z_injective. lia.
Qed.

Lemma eqb_of_nat_pred (i n : nat) :
  (0 < n)%nat ->
  (Num.of_nat i === Num.of_nat n - Fin 1)%num = (i =? n - 1)%nat.
Proof.
  intros Hn. apply eq_true_iff_eq.
  unfold Num.of_nat, Num.of_Z, Num.sub.
  rewrite eqb_Fin, Nat.eqb_eq, Qred_correct.
  change 1 with (inject_Z 1). unfold Qminus.
  rewrite <- inject_Z_opp, <- inject_Z_plus, inject_Z_injective. lia.
Qed.

Lemma ceil_div_bounds (a b : nat) :
  (0 < b)%nat -> (a <= ceil_div a b * b)%nat /\ (ceil_div a b * b < a + b)%nat.
Proof.
  intros Hb. unfold ceil_div.
  pose proof (Nat.div_mod (a + b - 1) b ltac:(lia)) as E.
  pose proof (Nat.mod_upper_bound (a + b - 1) b ltac:(lia)) as U.
  nia.
Qed.

Lemma shouldRenderTick_nat (index total : nat) :
  shouldRenderTick (Num.of_nat index) (Num.of_nat total) =
  if (total <=? X_LABEL_LIMIT)%nat then true
  else (index mod ceil_div total X_LABEL_LIMIT =? 0)%nat
       || (index =? total - 1)%nat.
Proof.
  unfold shouldRenderTick. rewrite of_nat_leb.
  destruct (total <=? X_LABEL_LIMIT)%nat eqn:E; [reflexivity|].
  apply Nat.leb_gt in E. unfold X_LABEL_LIMIT in *.
  rewrite ceil_of_nat_div by lia.
  pose proof (ceil_div_bounds total 6 ltac:(lia)) as [B _].
  rewrite rem_of_nat by lia.
  change (Fin 0) with (Num.of_nat 0).
  now rewrite eqb_of_nat, eqb_of_nat_pred by lia.
Qed.

(** *** Counting the ticks *)

Local Close Scope Q_scope.

Lemma filter_orb_length {A : Type} (f g : A -> bool) (l : list A) :
  length (List.filter (fun x => f x || g x) l)
  <= length (List.filter f l) + length (List.filter g l).
Proof.
  induction l as [|x l IH]; [reflexivity|].
  cbn [List.filter]. destruct (f x), (g x); cbn [orb length]; lia.
Qed.

Lemma filter_eqb_length (k : nat) (l : list nat) :
  List.NoDup l -> length (List.filter (fun i => i =? k) l) <= 1.
Proof.
  intros Hl.
  change 1 with (length [k]).
  apply NoDup_incl_length; [now apply List.NoDup_filter|].
  intros i Hi. apply filter_In in Hi as [_ Hi].
  apply Nat.eqb_eq in Hi. now left.
Qed.

(** Below [bound * step] there are at most [bound] multiples of [step]:
    dividing by [step] sends them to distinct numbers below [bound]. *)
Lemma filter_multiples_length (step bound n : nat) :
  0 < step -> n <= bound * step ->
  length (List.filter (fun i => i mod step =? 0) (seq 0 n)) <= bound.
Proof.
  intros Hs Hn.
  set (M := List.filter (fun i => i mod step =? 0) (seq 0 n)).
  assert (HM : forall i, In i M -> i < n /\ i = step * (i / step)).
  { intros i Hi. apply filter_In in Hi as [Hi Hmod].
    apply in_seq in Hi. apply Nat.eqb_eq in Hmod.
    pose proof (Nat.div_mod i step ltac:(lia)). split; lia. }
  assert (H : length (map (fun i => i / step) M) <= length (seq 0 bound)).
  { apply NoDup_incl_length.
    - apply NoDup_map_NoDup_ForallPairs; [|apply List.NoDup_filter, seq_NoDup].
      intros a b Ha Hb E. apply HM in Ha as [_ Ha]. apply HM in Hb as [_ Hb].
      rewrite Ha, Hb, E. reflexivity.
    - intros q Hq. apply in_map_iff in Hq as (i & <- & Hi).
      apply HM in Hi as [Hi _]. apply in_seq. split; [lia|]. cbn.
      apply Nat.Div0.div_lt_upper_bound. lia. }
  now rewrite List.length_map, List.length_seq in H.
Qed.

(** C2.  With at most [X_LABEL_LIMIT] rows every index gets a tick.  With
    more, an index gets a tick exactly when it is a multiple of the stride
    [ceil (total / X_LABEL_LIMIT)] or is the last index.  The ticks of a
    dataset therefore number at most [X_LABEL_LIMIT + 1], and the last
    index of a dataset that is not empty is among them. *)
Theorem horizontal_tick_selection :
  forall (data : list Datum) (index : nat),
    (length data <= X_LABEL_LIMIT ->
     shouldRenderTick (Num.of_nat index) (Num.of_nat (length data)) = true) /\
    (X_LABEL_LIMIT < length data ->
     shouldRenderTick (Num.of_nat index) (Num.of_nat (length data)) =
     (index mod ceil_div (length data) X_LABEL_LIMIT =? 0)
     || (index =? length data - 1)) /\
    (In index (xTickIndices data) <->
     index < length data /\
     shouldRenderTick (Num.of_nat index) (Num.of_nat (length data)) = true) /\
    length (xTickIndices data) <= X_LABEL_LIMIT + 1 /\
    (0 < length data -> In (length data - 1) (xTickIndices data)).
Proof.
  intros data index. set (total := length data).
  split; [|split; [|split; [|split]]].
  - intros H. rewrite shouldRenderTick_nat.
    apply Nat.leb_le in H. now rewrite H.
  - intros H. rewrite shouldRenderTick_nat.
    apply Nat.leb_gt in H. now rewrite H.
  - unfold xTickIndices. fold total. rewrite filter_In, in_seq. intuition lia.
  - unfold xTickIndices. fold total.
    destruct (Nat.le_gt_cases total X_LABEL_LIMIT) as [H|H].
    + etransitivity; [apply List.filter_length_le|]. rewrite length_seq. lia.
    + erewrite List.filter_ext.
      2:{ intros i. rewrite shouldRenderTick_nat.
          apply Nat.leb_gt in H. rewrite H. reflexivity. }
      etransitivity; [apply filter_orb_length|].
      apply Nat.add_le_mono.
      * apply filter_multiples_length.
        -- pose proof (ceil_div_bounds total X_LABEL_LIMIT). unfold X_LABEL_LIMIT in *. lia.
        -- pose proof (ceil_div_bounds total X_LABEL_LIMIT). unfold X_LABEL_LIMIT in *. lia.
      * apply filter_eqb_length, seq_NoDup.
  - intros H. unfold xTickIndices. fold total. apply filter_In. split.
    + apply in_seq. lia.
    + rewrite shouldRenderTick_nat.
      destruct (total <=? X_LABEL_LIMIT); [reflexivity|].
      rewrite Nat.eqb_refl. apply orb_true_r.
Qed.

Lemma horizontal_tick_selection_witness :
  shouldRenderTick (Num.of_nat 3) (Num.of_nat (length two_days)) = true /\
  shouldRenderTick (Num.of_nat 8)
    (Num.of_nat (length (replicate 20 (row_of "x" VNull)))) =
  (8 mod ceil_div (length (replicate 20 (row_of "x" VNull))) X_LABEL_LIMIT =? 0)
  || (8 =? length (replicate 20 (row_of "x" VNull)) - 1) /\
  In (length (replicate 20 (row_of "x" VNull)) - 1)
    (xTickIndices (replicate 20 (row_of "x" VNull))).
Proof.
  pose proof (horizontal_tick_selection two_days 3) as (H1 & _).
  pose proof (horizontal_tick_selection (replicate 20 (row_of "x" VNull)) 8)
    as (_ & H2 & _ & _ & H3).
  split; [apply H1; cbn; unfold X_LABEL_LIMIT; lia|].
  split; [apply H2; cbn; unfold X_LABEL_LIMIT; lia|].
  apply H3; cbn; lia.
Defined.

Example ticks_of_twenty_points :
  xTickIndices (replicate 20 (row_of "x" VNull)) = [0; 4; 8; 12; 16; 19].
Proof. vm_compute. reflexivity. Qed.

End Ticks.

(** ** Series extractor *)

Section Extractor.

Lemma filter_app_props (typeName : string) (l1 l2 : list ReactElement) :
  map props
    (List.filter (fun e => bool_decide (displayName e = Some typeName))
       (l1 ++ l2)) =
  map props
    (List.filter (fun e => bool_decide (displayName e = Some typeName)) l1) ++
  map props
    (List.filter (fun e => bool_decide (displayName e = Some typeName)) l2).
Proof. now rewrite List.filter_app, List.map_app. Qed.

(** The walk appends to the series found so far the matching
    declarations of the children, in order. *)
Lemma forEach_appends (typeName : string) (children : ReactNode) :
  forall series : list SeriesProps,
    Children_forEach children
      (fun series child =>
         if negb (isValidElement child) then series
         else
           match child with
           | RElement e =>
               if decide (displayName e = Some typeName)
               then series ++ [props e]
               else series
           | _ => series
           end)
      series
    = series ++ matching typeName children.
Proof.
  induction children as [|s|e|items IH] using ReactNode_nested_ind;
    intros series; unfold matching;
    cbn [Children_forEach declared isValidElement negb].
  - now rewrite app_nil_r.
  - now rewrite app_nil_r.
  - cbn [flat_map List.filter].
    destruct (decide (displayName e = Some typeName)) as [H|H].
    + now rewrite (bool_decide_true _ H).
    + rewrite (bool_decide_false _ H). cbn. now rewrite app_nil_r.
  - revert series. induction IH as [|child items Hchild _ IHitems]; intros series.
    + cbn. now rewrite app_nil_r.
    + cbn [fold_left flat_map]. rewrite Hchild, IHitems.
      rewrite filter_app_props. unfold matching. now rewrite app_assoc.
Qed.

(** C9.  The resolved series are exactly the props of the declared
    elements whose [displayName] is the renderer's tag, in declaration
    order; every other child is passed over, and when no declaration
    carries the tag the result is the empty list. *)
Theorem extractSeries_matching :
  forall (children : ReactNode) (typeName : string),
    extractSeries children typeName = matching typeName children /\
    (Forall (fun e => displayName e <> Some typeName) (declared children) ->
     extractSeries children typeName = []).
Proof.
  intros children typeName.
  assert (E : extractSeries children typeName = matching typeName children).
  { unfold extractSeries. now rewrite forEach_appends. }
  split; [exact E|]. intros Hnone. rewrite E. unfold matching.
  induction Hnone as [|e l He _ IH]; [reflexivity|].
  cbn [List.filter]. now rewrite bool_decide_false.
Qed.

Lemma extractSeries_matching_witness :
  extractSeries (RArray [XAxis; Line "requests"; REmpty; RArray [Bar "v"]])
    "RechartsArea" = [].
Proof.
  apply (extractSeries_matching
           (RArray [XAxis; Line "requests"; REmpty; RArray [Bar "v"]])
           "RechartsArea").
  repeat constructor; discriminate.
Defined.

Example extractSeries_in_order :
  extractSeries
    (RArray [XAxis; Bar "b"; RText "note"; RArray [Line "l"; Bar "a"]; Bar "c"])
    "RechartsBar"
  = [series_of "b"; series_of "a"; series_of "c"].
Proof. reflexivity. Qed.

End Extractor.

(** ** Axis labels *)

Section AxisLabels.

Variable fraction_digits : Q -> string.

Lemma length_substring_prefix (n : nat) :
  forall s : string, n <= String.length s ->
    String.length (String.substring 0 n s) = n.
Proof.
  induction n as [|n IH]; intros s Hs; destruct s as [|c s];
    cbn in *; try reflexivity; try lia.
  f_equal. apply IH. lia.
Qed.

Lemma length_append (s1 s2 : string) :
  String.length (String.append s1 s2) = String.length s1 + String.length s2.
Proof.
  induction s1 as [|c s1 IH]; [reflexivity|].
  change (S (String.length (String.append s1 s2))
          = S (String.length s1 + String.length s2)).
  now f_equal.
Qed.

(** An index below [10^21] prints as its decimal digits. *)
Lemma Number_toString_index (index : nat) :
  (Z.of_nat index + 1 < 10 ^ 21)%Z ->
  Number_toString fraction_digits (Num.of_nat index + Fin 1)
  = NilZero.string_of_int (Z.to_int (Z.of_nat (index + 1))).
Proof.
  intros Hi.
  assert (E : (Num.of_nat index + Fin 1)%num = Num.of_Z (Z.of_nat (index + 1))).
  { unfold Num.of_nat, Num.of_Z, Num.add. apply Fin_Qred_Z.
    change 1%Q with (inject_Z 1). rewrite <- inject_Z_plus.
    apply inject_Z_injective. lia. }
  rewrite E. unfold Num.of_Z, Number_toString, is_integer.
  rewrite Qfloor_Z.
  assert (I : Qeq_bool (inject_Z (Z.of_nat (index + 1)))
                (inject_Z (Z.of_nat (index + 1))) = true)
    by now apply Qeq_bool_iff.
  assert (B : Qle_bool (inject_Z (10 ^ 21))
                (Qabs (inject_Z (Z.of_nat (index + 1)))) = false).
  { apply not_true_iff_false. rewrite Qle_bool_iff.
    rewrite Qabs_pos by (change 0%Q with (inject_Z 0); rewrite <- Zle_Qle; lia).
    rewrite <- Zle_Qle. lia. }
  now rewrite I, B.
Qed.

Lemma raw_label (row : Datum) (index : nat) :
  (Z.of_nat index + 1 < 10 ^ 21)%Z ->
  ToString fraction_digits
    (get row "label" ?? get row "bucket_start"
     ?? VNum (Num.of_nat index + Fin 1))
  = derived_label fraction_digits row index.
Proof.
  intros Hi. unfold derived_label.
  destruct (get row "label"); cbn [JS.coalesce present]; try reflexivity;
    destruct (get row "bucket_start"); cbn [JS.coalesce present];
    try reflexivity; cbn [ToString]; now apply Number_toString_index.
Qed.

End AxisLabels.

(** C8.  The label of the row at [index] is its [label] field when that
    is present, else its [bucket_start] field, else [index + 1] in
    decimal; a label of more than 10 characters is cut to its first 10
    characters followed by three dots, and a shorter one is returned as
    it is. *)
Theorem bucket_label_derivation :
  forall (fraction_digits : Q -> string) (row : Datum) (index : nat),
    (Z.of_nat index + 1 < 10 ^ 21)%Z ->
    (10 < String.length (derived_label fraction_digits row index) ->
     getBucketLabel fraction_digits row index
     = String.append
         (String.substring 0 10 (derived_label fraction_digits row index))
         "..." /\
     String.length
       (String.substring 0 10 (derived_label fraction_digits row index)) = 10 /\
     String.length (getBucketLabel fraction_digits row index) = 13) /\
    (String.length (derived_label fraction_digits row index) <= 10 ->
     getBucketLabel fraction_digits row index
     = derived_label fraction_digits row index).
Proof.
  intros fd row index Hi. unfold getBucketLabel.
  rewrite (raw_label fd row index Hi).
  destruct (10 <? String.length (derived_label fd row index)) eqn:E.
  - apply Nat.ltb_lt in E. split; [|lia]. intros _.
    assert (L : String.length
                  (String.substring 0 10 (derived_label fd row index)) = 10)
      by (apply length_substring_prefix; lia).
    split; [reflexivity|]. split; [exact L|].
    rewrite length_append, L. reflexivity.
  - apply Nat.ltb_ge in E. split; [lia|]. reflexivity.
Qed.

Lemma bucket_label_derivation_witness :
  getBucketLabel (fun _ => "") {[ "bucket_start" := VStr "2024-01-01T00:00:00Z" ]} 0
  = String.append
      (String.substring 0 10
         (derived_label (fun _ => "")
            {[ "bucket_start" := VStr "2024-01-01T00:00:00Z" ]} 0))
      "..." /\
  getBucketLabel (fun _ => "") ∅ 11 = derived_label (fun _ => "") ∅ 11.
Proof.
  split.
  - apply (bucket_label_derivation (fun _ => "")
             {[ "bucket_start" := VStr "2024-01-01T00:00:00Z" ]} 0);
      [reflexivity | vm_compute; lia].
  - apply (bucket_label_derivation (fun _ => "") ∅ 11);
      [reflexivity | vm_compute; lia].
Defined.

Example bucket_labels :
  getBucketLabel (fun _ => "") (row_of "Mon" VNull) 0 = "Mon" /\
  getBucketLabel (fun _ => "")
    {[ "label" := VNull; "bucket_start" := VStr "2024-01-01T00:00:00Z" ]} 3
  = "2024-01-01..." /\
  getBucketLabel (fun _ => "") ∅ 11 = "12" /\
  getBucketLabel (fun _ => "") {[ "label" := VStr "0123456789" ]} 0
  = "0123456789".
Proof. repeat split. Qed.

(** ** Bar renderer *)

Section Bars.

Local Open Scope Q_scope.

(** The node drawn for the bar of series [j] in the group of row [i]. *)
Lemma BarChart_node (data : list Datum) (children : ReactNode)
    (i j : nat) (row : Datum) (bar : SeriesProps) :
  data !! i = Some row ->
  extractSeries children "RechartsBar" !! j = Some bar ->
  exists nodes : list BarNode,
    BarChart data children !! i = Some nodes /\
    nodes !! j =
    Some (barNode
            (maxValue data (extractSeries children "RechartsBar"))
            (groupWidth data)
            (barWidth data (extractSeries children "RechartsBar"))
            (Fin 268) i row j bar).
Proof.
  intros Hrow Hbar. unfold BarChart.
  rewrite list_lookup_imap, Hrow. cbn [fmap option_fmap option_map].
  eexists. split; [reflexivity|].
  rewrite list_lookup_imap, Hbar. reflexivity.
Qed.

Lemma of_nat_succ_nonzero (n : nat) :
  exists q : Q, (Num.of_nat n + Fin 1)%num = Fin q /\ ~ q == 0.
Proof.
  exists (Qred (inject_Z (Z.of_nat n) + 1)). split; [reflexivity|].
  rewrite Qred_correct. change 1 with (inject_Z 1).
  rewrite <- inject_Z_plus. apply inject_Z_nonzero. lia.
Qed.

Lemma max_with_floor (x : Q) :
  exists w : Q, Num.Math_max [Fin x; Fin 8] = Fin w /\ 8 <= w.
Proof.
  unfold Num.Math_max. cbn [fold_left].
  change (Num.max2 NInf (Fin x)) with (Fin x). rewrite max2_Fin.
  destruct (Qle_bool 8 x) eqn:E.
  - exists x. split; [reflexivity|]. now apply Qle_bool_iff.
  - exists 8. split; [reflexivity|]. apply Qle_refl.
Qed.

Lemma groupWidth_finite (data : list Datum) :
  exists g : Q, groupWidth data = Fin g.
Proof.
  unfold groupWidth.
  change (CHART_WIDTH - left CHART_PADDING - right CHART_PADDING)%num
    with (Fin 884).
  destruct (0 <? length data)%nat eqn:E; [|now exists 884].
  apply Nat.ltb_lt in E. unfold Num.of_nat, Num.of_Z.
  rewrite div_Fin by (apply inject_Z_nonzero; lia). eauto.
Qed.

Lemma barWidth_floor (data : list Datum) (bars : list SeriesProps) :
  (Fin 8 <=? barWidth data bars)%num = true.
Proof.
  unfold barWidth. destruct (0 <? length bars)%nat; [|reflexivity].
  destruct (groupWidth_finite data) as (g & ->).
  destruct (of_nat_succ_nonzero (length bars)) as (d & -> & Hd).
  rewrite div_Fin by exact Hd.
  destruct (max_with_floor (Qred (g / d))) as (w & -> & Hw).
  now apply leb_Fin.
Qed.

Lemma barWidth_formula (data : list Datum) (bars : list SeriesProps) :
  data <> [] -> bars <> [] ->
  barWidth data bars = bar_width_formula (length data) (length bars).
Proof.
  intros Hdata Hbars. unfold barWidth, groupWidth, bar_width_formula.
  destruct data; [congruence|]. destruct bars; [congruence|]. reflexivity.
Qed.

(** C7.  Every bar drawn has the width
    [max (groupWidth / (seriesCount + 1), 8)], where [groupWidth] is the
    usable plot width over the number of data points; the bar width is
    at least 8 whatever the rows and the series. *)
Theorem bar_width_floor :
  forall (data : list Datum) (children : ReactNode),
    (Fin 8 <=? barWidth data (extractSeries children "RechartsBar"))%num = true /\
    forall (i j : nat) (row : Datum) (bar : SeriesProps),
      data !! i = Some row ->
      extractSeries children "RechartsBar" !! j = Some bar ->
      exists (nodes : list BarNode) (node : BarNode),
        BarChart data children !! i = Some nodes /\
        nodes !! j = Some node /\
        rect_width node
        = bar_width_formula (length data)
            (length (extractSeries children "RechartsBar")) /\
        (Fin 8 <=? rect_width node)%num = true.
Proof.
  intros data children. split; [apply barWidth_floor|].
  intros i j row bar Hrow Hbar.
  destruct (BarChart_node data children i j row bar Hrow Hbar)
    as (nodes & Hnodes & Hnode).
  eexists nodes, _. split; [exact Hnodes|]. split; [exact Hnode|].
  cbn [rect_width barNode]. split; [|apply barWidth_floor].
  apply barWidth_formula.
  - intros ->. discriminate.
  - intros E. rewrite E in Hbar. discriminate.
Qed.

Lemma bar_width_floor_witness :
  exists (nodes : list BarNode) (node : BarNode),
    BarChart two_days (RArray [Bar "v"; Bar "w"]) !! 1%nat = Some nodes /\
    nodes !! 0%nat = Some node /\
    rect_width node
    = bar_width_formula (length two_days)
        (length (extractSeries (RArray [Bar "v"; Bar "w"]) "RechartsBar")) /\
    (Fin 8 <=? rect_width node)%num = true.
Proof.
  pose proof (bar_width_floor two_days (RArray [Bar "v"; Bar "w"])) as [_ H].
  apply (H 1%nat 0%nat (row_of "Tue" (VNum (Fin 20))) (series_of "v"));
    reflexivity.
Defined.

Example bar_width_of_two_series :
  bar_width_formula 2 2 = Fin (442 # 3) /\
  barWidth two_days [series_of "v"; series_of "w"] = Fin (442 # 3) /\
  barWidth (replicate 200 (row_of "x" VNull)) [series_of "v"] = Fin 8.
Proof. repeat split; vm_compute; reflexivity. Qed.

(** *** Value labels *)

(** The text of the value label of a node, if it has one. *)
Lemma barNode_label (m g w b : num) (i j : nat) (row : Datum)
    (bar : SeriesProps) :
  text_value <$> label (barNode m g w b i row j bar)
  = if (toNumber (get row (dataKey bar)) >? Fin 0)%num
    then Some (Num.Math_round (toNumber (get row (dataKey bar))))
    else None.
Proof.
  unfold barNode. cbn [label].
  now destruct (toNumber (get row (dataKey bar)) >? Fin 0)%num.
Qed.

Lemma zero_not_positive (n : num) :
  (n === Fin 0)%num = true -> (n >? Fin 0)%num = false.
Proof.
  destruct n as [q| | |]; try discriminate. intros H.
  apply Qeq_bool_iff in H. unfold Num.gtb, Num.ltb.
  apply negb_false_iff, Qle_bool_iff. rewrite H. apply Qle_refl.
Qed.

(** C6, as amended.  A bar carries a value label, whose text is the
    rounded value, exactly when the coerced value is greater than 0; a
    bar whose value is 0 carries none, so a dataset whose values are all
    0 shows no label. *)
Theorem bar_value_labels :
  forall (data : list Datum) (children : ReactNode)
         (i j : nat) (row : Datum) (bar : SeriesProps),
    data !! i = Some row ->
    extractSeries children "RechartsBar" !! j = Some bar ->
    exists (nodes : list BarNode) (node : BarNode),
      BarChart data children !! i = Some nodes /\
      nodes !! j = Some node /\
      text_value <$> label node
      = (if (toNumber (get row (dataKey bar)) >? Fin 0)%num
         then Some (Num.Math_round (toNumber (get row (dataKey bar))))
         else None) /\
      ((toNumber (get row (dataKey bar)) === Fin 0)%num = true ->
       label node = None).
Proof.
  intros data children i j row bar Hrow Hbar.
  destruct (BarChart_node data children i j row bar Hrow Hbar)
    as (nodes & Hnodes & Hnode).
  eexists nodes, _. split; [exact Hnodes|]. split; [exact Hnode|].
  split; [apply barNode_label|].
  intros Hz. unfold barNode. cbn [label].
  now rewrite (zero_not_positive _ Hz).
Qed.

Lemma bar_value_labels_witness :
  exists (nodes : list BarNode) (node : BarNode),
    BarChart two_days (Bar "v") !! 0%nat = Some nodes /\
    nodes !! 0%nat = Some node /\
    text_value <$> label node
    = (if (toNumber (get (row_of "Mon" (VNum (Fin 10))) (dataKey (series_of "v")))
           >? Fin 0)%num
       then Some (Num.Math_round
                    (toNumber (get (row_of "Mon" (VNum (Fin 10)))
                                 (dataKey (series_of "v")))))
       else None) /\
    ((toNumber (get (row_of "Mon" (VNum (Fin 10))) (dataKey (series_of "v")))
      === Fin 0)%num = true ->
     label node = None).
Proof.
  apply (bar_value_labels two_days (Bar "v") 0%nat 0%nat
           (row_of "Mon" (VNum (Fin 10))) (series_of "v"));
    reflexivity.
Defined.

(** A negative value is not zero, and its bar carries no label. *)
Lemma negative_bar_has_no_label :
  toNumber (get (row_of "x" (VNum (Fin (-5)))) "v") = Fin (-5) /\
  (Fin (-5) === Fin 0)%num = false /\
  map (map label) (BarChart [row_of "x" (VNum (Fin (-5)))] (Bar "v"))
  = [[None]].
Proof. repeat split. Qed.

Example zero_bars_have_no_label :
  map (map label)
    (BarChart (replicate 5 (row_of "x" (VNum (Fin 0)))) (Bar "v"))
  = replicate 5 [None].
Proof. vm_compute. reflexivity. Qed.

Example rounded_label :
  map (map (fun node => text_value <$> label node))
    (BarChart [row_of "x" (VStr "12.5"); row_of "y" (VStr "N/A")] (Bar "v"))
  = [[Some (Fin 13)]; [None]].
Proof. vm_compute. reflexivity. Qed.

(** *** Bar height *)

(** Multiplying the padding record by 2 gives [NaN], and with it the
    height and the top edge of every bar. *)
Lemma barNode_height (m g w b : num) (i j : nat) (row : Datum)
    (bar : SeriesProps) :
  (m >? Fin 0)%num = true -> Num.isFinite b = true ->
  rect_height (barNode m g w b i row j bar) = NaN /\
  rect_y (barNode m g w b i row j bar) = NaN.
Proof.
  intros Hm Hb. unfold barNode. cbn [rect_height rect_y]. rewrite Hm.
  change (JS.Number (as_value CHART_PADDING)) with NaN.
  change (CHART_HEIGHT - NaN * Fin 2)%num with NaN.
  change (NaN * toNumber (get row (dataKey bar)))%num with NaN.
  change (NaN / m)%num with NaN.
  split; [reflexivity|]. now destruct b.
Qed.

Lemma maxValue_positive (data : list Datum) (series : list SeriesProps) :
  (maxValue data series >? Fin 0)%num = true.
Proof.
  unfold maxValue, Num.Math_max. cbn [fold_left].
  change (Num.max2 NInf (Fin 1)) with (Fin 1).
  destruct (fold_max2_Fin _ (coerced_values_finite data series) 1)
    as (m & -> & H1m & _).
  apply ltb_Fin. lra.
Qed.

Lemma BarChart_heights (data : list Datum) (children : ReactNode) :
  Forall (Forall (fun node => rect_height node = NaN /\ rect_y node = NaN))
    (BarChart data children).
Proof.
  unfold BarChart. apply Forall_lookup. intros i nodes Hi.
  rewrite list_lookup_imap in Hi.
  destruct (data !! i) as [row|]; [|discriminate]. injection Hi as <-.
  apply Forall_lookup. intros j node Hj.
  rewrite list_lookup_imap in Hj.
  destruct (extractSeries children "RechartsBar" !! j) as [bar|];
    [|discriminate].
  injection Hj as <-.
  apply barNode_height; [apply maxValue_positive | reflexivity].
Qed.

(** C1, on the code: for the rows [v = 10] and [v = 20] under one bar
    series the domain maximum is 20 and the proportional heights are 124
    and 248, with top edges 144 and 20; the bars drawn have [NaN] for
    both the height and the top edge. *)
Theorem bar_height_is_not_a_number :
  maxValue two_days (extractSeries (Bar "v") "RechartsBar") = Fin 20 /\
  map (fun v => proportional_height v (Fin 20)) [Fin 10; Fin 20]
  = [Fin 124; Fin 248] /\
  map (map (fun node => (rect_height node, rect_y node)))
    (BarChart two_days (Bar "v"))
  = [[(NaN, NaN)]; [(NaN, NaN)]].
Proof. repeat split. Qed.

End Bars.

(** * Further properties *)

(** ** Points inside the plot area *)

Section PlotArea.

Local Open Scope Q_scope.

(** [chartX] spreads the points of a dataset strictly from left to
    right, between the left padding 56 and the right edge 940. *)
Theorem chartX_spreads_points :
  forall total i j : Q,
    1 < total -> 0 <= i -> i < j -> j <= total - 1 ->
    (chartX (Fin i) (Fin total) <? chartX (Fin j) (Fin total))%num = true /\
    (Fin 56 <=? chartX (Fin i) (Fin total))%num = true /\
    (chartX (Fin j) (Fin total) <=? Fin 940)%num = true.
Proof.
  intros total i j Ht Hi Hij Hj. rewrite !chartX_Fin by exact Ht.
  rewrite ltb_Fin, !leb_Fin, !Qred_correct. unfold Qdiv.
  assert (Hx : 0 < / (total - 1)) by (apply Qinv_lt_0_compat; lra).
  assert (E : (total - 1) * / (total - 1) == 1) by (apply Qmult_inv_r; lra).
  set (x := / (total - 1)) in *. repeat split; nra.
Qed.

Lemma chartX_spreads_points_witness :
  (chartX (Fin 0) (Fin 3) <? chartX (Fin 1) (Fin 3))%num = true /\
  (Fin 56 <=? chartX (Fin 0) (Fin 3))%num = true /\
  (chartX (Fin 1) (Fin 3) <=? Fin 940)%num = true.
Proof.
  apply (chartX_spreads_points 3 0 1); [reflexivity | discriminate | reflexivity | discriminate].
Defined.

Lemma chartX_in_plot (index total : nat) :
  (index < total)%nat ->
  exists x : Q,
    chartX (Num.of_nat index) (Num.of_nat total) = Fin x /\ 56 <= x <= 940.
Proof.
  intros Hi. destruct (Nat.le_gt_cases total 1) as [Ht|Ht].
  - exists 56. split; [|lra]. unfold chartX.
    change (Fin 1) with (Num.of_nat 1). rewrite of_nat_leb.
    apply Nat.leb_le in Ht. now rewrite Ht.
  - unfold Num.of_nat, Num.of_Z.
    assert (Ht' : 1 < inject_Z (Z.of_nat total)).
    { change 1 with (inject_Z 1). rewrite <- Zlt_Qlt. lia. }
    assert (Hi0 : 0 <= inject_Z (Z.of_nat index)).
    { change 0 with (inject_Z 0). rewrite <- Zle_Qle. lia. }
    assert (Hi1 : inject_Z (Z.of_nat index) <= inject_Z (Z.of_nat total) - 1).
    { change 1 with (inject_Z 1). unfold Qminus.
      rewrite <- inject_Z_opp, <- inject_Z_plus, <- Zle_Qle. lia. }
    rewrite chartX_Fin by exact Ht'. eexists. split; [reflexivity|].
    rewrite Qred_correct. unfold Qdiv.
    assert (Hx : 0 < / (inject_Z (Z.of_nat total) - 1))
      by (apply Qinv_lt_0_compat; lra).
    assert (E : (inject_Z (Z.of_nat total) - 1)
                * / (inject_Z (Z.of_nat total) - 1) == 1)
      by (apply Qmult_inv_r; lra).
    set (x := / (inject_Z (Z.of_nat total) - 1)) in *.
    set (t := inject_Z (Z.of_nat total)) in *.
    set (k := inject_Z (Z.of_nat index)) in *. split; nra.
Qed.

Lemma chartY_in_plot (value maxValue : Q) :
  0 < maxValue -> value <= maxValue ->
  exists y : Q,
    chartY (Fin value) (Fin maxValue) = Fin y /\ 20 <= y /\
    (0 <= value -> y <= 268).
Proof.
  intros Hm Hv. rewrite chartY_Fin by exact Hm.
  eexists. split; [reflexivity|]. rewrite Qred_correct. unfold Qdiv.
  assert (Hx : 0 < / maxValue) by now apply Qinv_lt_0_compat.
  assert (E : maxValue * / maxValue == 1) by (apply Qmult_inv_r; lra).
  set (x := / maxValue) in *. split; [nra | intros H0; nra].
Qed.

(** The domain of a chart is a finite number, at least 1, that bounds
    every coerced value. *)
Lemma maxValue_bounds (data : list Datum) (series : list SeriesProps) :
  exists m : Q,
    maxValue data series = Fin m /\ 1 <= m /\
    forall row s, In row data -> In s series ->
      exists v : Q, toNumber (get row (dataKey s)) = Fin v /\ v <= m.
Proof.
  unfold maxValue, Num.Math_max. cbn [fold_left].
  change (Num.max2 NInf (Fin 1)) with (Fin 1).
  destruct (fold_max2_Fin _ (coerced_values_finite data series) 1)
    as (m & Hm & H1m & Hall & _).
  exists m. split; [exact Hm|]. split; [exact H1m|].
  intros row s Hrow Hs. rewrite List.Forall_forall in Hall.
  assert (Hin : In (toNumber (get row (dataKey s)))
                  (flat_map
                     (fun row => map (fun s => toNumber (get row (dataKey s)))
                                   series) data)).
  { apply in_flat_map. exists row. split; [exact Hrow|].
    apply in_map_iff. now exists s. }
  specialize (Hall _ Hin).
  pose proof (toNumber_finite (get row (dataKey s))) as Hfin.
  destruct (toNumber (get row (dataKey s))) as [v| | |]; try discriminate.
  exists v. split; [reflexivity|]. now apply leb_Fin.
Qed.

(** [LineChart] draws one group of markers per line series and one
    marker per row; every marker lies between the left and right edges
    of the plot and never above its top edge 20, whatever the data.
    When no coerced value is negative, no marker lies below the
    baseline 268 either. *)
Theorem line_markers_in_plot :
  forall (data : list Datum) (children : ReactNode),
    length (LineChart data children)
    = length (extractSeries children "RechartsLine") /\
    Forall
      (fun group =>
         length group = length data /\
         Forall
           (fun p =>
              (Fin 56 <=? fst p)%num = true /\ (fst p <=? Fin 940)%num = true /\
              (Fin 20 <=? snd p)%num = true)
           group)
      (LineChart data children) /\
    ((forall row line,
        In row data -> In line (extractSeries children "RechartsLine") ->
        (Fin 0 <=? toNumber (get row (dataKey line)))%num = true) ->
     Forall (Forall (fun p => (snd p <=? Fin 268)%num = true))
       (LineChart data children)).
Proof.
  intros data children. unfold LineChart.
  set (lines := extractSeries children "RechartsLine").
  destruct (maxValue_bounds data lines) as (m & Hm & H1m & Hv).
  rewrite Hm. split; [apply List.length_map|]. split.
  - apply Forall_fmap, Forall_forall. intros line Hline. cbn.
    split; [apply length_imap|].
    apply Forall_lookup. intros i p Hp. rewrite list_lookup_imap in Hp.
    destruct (data !! i) as [row|] eqn:Hrow; [|discriminate].
    injection Hp as <-. cbn [fst snd].
    destruct (chartX_in_plot i (length data)) as (x & -> & Hx).
    { now apply lookup_lt_Some in Hrow. }
    destruct (Hv row line) as (v & -> & Hvm).
    { apply list_elem_of_In. now apply list_elem_of_lookup_2 in Hrow. }
    { now apply list_elem_of_In. }
    destruct (chartY_in_plot v m) as (y & -> & Hy & _); [lra | exact Hvm|].
    repeat split; apply leb_Fin; lra.
  - intros Hpos. apply Forall_fmap, Forall_forall. intros line Hline. cbn.
    apply Forall_lookup. intros i p Hp. rewrite list_lookup_imap in Hp.
    destruct (data !! i) as [row|] eqn:Hrow; [|discriminate].
    injection Hp as <-. cbn [snd].
    assert (Hr : In row data).
    { apply list_elem_of_In. now apply list_elem_of_lookup_2 in Hrow. }
    assert (Hl : In line lines) by now apply list_elem_of_In.
    specialize (Hpos row line Hr Hl).
    destruct (Hv row line Hr Hl) as (v & E & Hvm). rewrite E in *.
    apply leb_Fin in Hpos.
    destruct (chartY_in_plot v m) as (y & -> & _ & Hy); [lra | exact Hvm|].
    apply leb_Fin. now apply Hy.
Qed.

Lemma line_markers_in_plot_witness :
  Forall (Forall (fun p => (snd p <=? Fin 268)%num = true))
    (LineChart two_days (RArray [XAxis; Line "v"])).
Proof.
  apply (line_markers_in_plot two_days (RArray [XAxis; Line "v"])).
  intros row line Hrow Hline.
  destruct Hline as [<-|[]].
  destruct Hrow as [<-|[<-|[]]]; reflexivity.
Defined.

End PlotArea.

(** ** Axes *)

Section AxesFacts.

Local Open Scope Q_scope.

Variable fraction_digits : Q -> string.

Lemma gridline_position (m : Q) (i : nat) :
  0 < m ->
  chartY (Fin m * (Num.of_nat 4 - Num.of_nat i) / Num.of_nat 4)%num (Fin m)
  = Fin (Qred (20 + 62 * inject_Z (Z.of_nat i))).
Proof.
  intros Hm.
  change (Fin m * (Num.of_nat 4 - Num.of_nat i) / Num.of_nat 4)%num
    with (Fin (Qred (Qred (m * Qred (4 - inject_Z (Z.of_nat i))) / 4))).
  rewrite chartY_Fin by exact Hm. apply Fin_Qred.
  rewrite !Qred_correct. field. lra.
Qed.

(** The five value gridlines of a chart lie at 20, 82, 144, 206 and 268,
    whatever the data; the label of the top one is the rounded domain
    maximum and the label of the bottom one is 0. *)
Theorem value_gridlines :
  forall (data : list Datum) (series : list SeriesProps),
    map grid_y (yTicks (renderAxes fraction_digits data (maxValue data series)))
    = [Fin 20; Fin 82; Fin 144; Fin 206; Fin 268] /\
    map ylabel_y
      (yTicks (renderAxes fraction_digits data (maxValue data series)))
    = [Fin 24; Fin 86; Fin 148; Fin 210; Fin 272] /\
    ylabel_text <$>
      head (yTicks (renderAxes fraction_digits data (maxValue data series)))
    = Some (Num.Math_round (maxValue data series)) /\
    ylabel_text <$>
      last (yTicks (renderAxes fraction_digits data (maxValue data series)))
    = Some (Fin 0).
Proof.
  intros data series.
  destruct (maxValue_bounds data series) as (m & -> & Hm & _).
  assert (Hpos : 0 < m) by lra.
  unfold renderAxes. cbn [yTicks]. rewrite !List.map_map. cbn [grid_y ylabel_y].
  split; [|split; [|split]].
  - change [Fin 20; Fin 82; Fin 144; Fin 206; Fin 268]
      with (map (fun i => Fin (Qred (20 + 62 * inject_Z (Z.of_nat i))))
              (seq 0 (4 + 1))).
    apply List.map_ext. intros i. now apply gridline_position.
  - change [Fin 24; Fin 86; Fin 148; Fin 210; Fin 272]
      with (map (fun i =>
                   (Fin (Qred (20 + 62 * inject_Z (Z.of_nat i))) + Fin 4)%num)
              (seq 0 (4 + 1))).
    apply List.map_ext. intros i. now rewrite gridline_position.
  - cbn [seq Nat.add map head fmap option_fmap option_map ylabel_text].
    f_equal. unfold Num.Math_round, Num.of_Z.
    change (Fin m * (Num.of_nat 4 - Num.of_nat 0) / Num.of_nat 4)%num
      with (Fin (Qred (Qred (m * 4) / 4))).
    cbn beta iota. do 2 f_equal. apply Qfloor_comp.
    rewrite !Qred_correct. field.
  - cbn [seq Nat.add map last fmap option_fmap option_map ylabel_text].
    f_equal. unfold Num.Math_round, Num.of_Z.
    change (Fin m * (Num.of_nat 4 - Num.of_nat 4) / Num.of_nat 4)%num
      with (Fin (Qred (Qred (m * 0) / 4))).
    cbn beta iota. f_equal.
    transitivity (inject_Z (Qfloor (0 + (1 # 2)))); [|reflexivity].
    f_equal. apply Qfloor_comp. rewrite !Qred_correct. field.
Qed.

Lemma omap_ext_in {A B : Type} (f g : A -> option B) (l : list A) :
  (forall x, In x l -> f x = g x) -> omap f l = omap g l.
Proof.
  induction l as [|x l IH]; intros H; [reflexivity|]. cbn.
  rewrite (H x) by now left.
  rewrite IH by (intros y Hy; apply H; now right). reflexivity.
Qed.

(** Dropping the [null]s of a [map] whose callback returns [null]
    unless [p index] leaves the entries of the indices that satisfy
    [p], in order. *)
Lemma rendered_imap {A B : Type} (p : nat -> bool) (f : nat -> A -> B)
    (l : list A) :
  omap id (imap (fun i x => if negb (p i) then None else Some (f i x)) l)
  = omap (fun i => f i <$> l !! i) (List.filter p (seq 0 (length l))).
Proof.
  induction l as [|x l IH] using rev_ind; [reflexivity|].
  rewrite imap_app, omap_app, IH, length_app. cbn [length].
  rewrite Nat.add_1_r, seq_S, List.filter_app, omap_app. cbn [Nat.add].
  f_equal.
  - apply omap_ext_in. intros i Hi. apply filter_In in Hi as [Hi _].
    apply in_seq in Hi. rewrite lookup_app_l by lia. reflexivity.
  - cbn [imap List.filter]. rewrite Nat.add_0_r.
    destruct (p (length l)); [|reflexivity]. cbn.
    rewrite lookup_app_r by lia. rewrite Nat.sub_diag. reflexivity.
Qed.

Lemma length_omap_le {A B : Type} (f : A -> option B) (l : list A) :
  (length (omap f l) <= length l)%nat.
Proof.
  induction l as [|x l IH]; [reflexivity|]. cbn.
  destruct (f x); cbn; lia.
Qed.

Lemma xTickIndices_length (data : list Datum) :
  (length (xTickIndices data) <= X_LABEL_LIMIT + 1)%nat.
Proof.
  unfold xTickIndices. set (total := length data).
  destruct (Nat.le_gt_cases total X_LABEL_LIMIT) as [H|H].
  - etransitivity; [apply List.filter_length_le|]. rewrite List.length_seq. lia.
  - erewrite List.filter_ext.
    2:{ intros i. rewrite shouldRenderTick_nat.
        apply Nat.leb_gt in H. rewrite H. reflexivity. }
    etransitivity; [apply filter_orb_length|].
    pose proof (ceil_div_bounds total X_LABEL_LIMIT) as B.
    unfold X_LABEL_LIMIT in *.
    apply Nat.add_le_mono.
    + apply filter_multiples_length; lia.
    + apply filter_eqb_length, seq_NoDup.
Qed.

Lemma chartX_first (total : nat) :
  chartX (Num.of_nat 0) (Num.of_nat total) = Fin 56.
Proof.
  destruct (Nat.le_gt_cases total 1) as [Ht|Ht].
  - unfold chartX. change (Fin 1) with (Num.of_nat 1). rewrite of_nat_leb.
    apply Nat.leb_le in Ht. now rewrite Ht.
  - unfold Num.of_nat, Num.of_Z. rewrite chartX_Fin.
    + apply Fin_Qred_const; [|reflexivity]. cbn [Z.of_nat]. field.
      change 1 with (inject_Z 1). unfold Qminus.
      rewrite <- inject_Z_opp, <- inject_Z_plus.
      apply inject_Z_nonzero. lia.
    + change 1 with (inject_Z 1). rewrite <- Zlt_Qlt. lia.
Qed.

Lemma chartX_last (total : nat) :
  (2 <= total)%nat ->
  chartX (Num.of_nat (total - 1)) (Num.of_nat total) = Fin 940.
Proof.
  intros Ht. unfold Num.of_nat, Num.of_Z. rewrite chartX_Fin.
  - apply Fin_Qred_const; [|reflexivity].
    replace (Z.of_nat (total - 1)) with (Z.of_nat total + - (1))%Z by lia.
    rewrite inject_Z_plus, inject_Z_opp. change (inject_Z 1) with 1.
    field. change 1 with (inject_Z 1). unfold Qminus.
    rewrite <- inject_Z_opp, <- inject_Z_plus.
    apply inject_Z_nonzero. lia.
  - change 1 with (inject_Z 1). rewrite <- Zlt_Qlt. lia.
Qed.

Lemma first_index_ticked (total : nat) :
  shouldRenderTick (Num.of_nat 0) (Num.of_nat total) = true.
Proof.
  rewrite shouldRenderTick_nat. destruct (total <=? X_LABEL_LIMIT)%nat;
    [reflexivity|].
  now rewrite Nat.Div0.mod_0_l.
Qed.

Lemma last_index_ticked (total : nat) :
  shouldRenderTick (Num.of_nat (total - 1)) (Num.of_nat total) = true.
Proof.
  rewrite shouldRenderTick_nat. destruct (total <=? X_LABEL_LIMIT)%nat;
    [reflexivity|].
  rewrite Nat.eqb_refl. apply orb_true_r.
Qed.

(** The tick groups [renderAxes] draws below the axis are those of the
    selected indices, in order, each at the x of its row and labelled
    with the bucket label of its row; there are at most 7.  The first
    row always has a tick, at x = 56, and with two rows or more the last
    row has one at x = 940. *)
Theorem index_ticks :
  forall (data : list Datum) (maxValue : num),
    omap id (xTicks (renderAxes fraction_digits data maxValue))
    = omap (fun index =>
              (fun row =>
                 {| tick_x :=
                      chartX (Num.of_nat index) (Num.of_nat (length data));
                    tick_y2 := Fin 274;
                    xlabel_y := Fin 292;
                    xlabel_text := getBucketLabel fraction_digits row index |})
              <$> data !! index)
        (xTickIndices data) /\
    (length (omap id (xTicks (renderAxes fraction_digits data maxValue)))
     <= X_LABEL_LIMIT + 1)%nat /\
    (forall row, data !! 0%nat = Some row ->
       xTicks (renderAxes fraction_digits data maxValue) !! 0%nat
       = Some (Some {| tick_x := Fin 56;
                       tick_y2 := Fin 274;
                       xlabel_y := Fin 292;
                       xlabel_text := getBucketLabel fraction_digits row 0 |})) /\
    (forall row, (2 <= length data)%nat ->
       data !! (length data - 1)%nat = Some row ->
       xTicks (renderAxes fraction_digits data maxValue)
         !! (length data - 1)%nat
       = Some (Some {| tick_x := Fin 940;
                       tick_y2 := Fin 274;
                       xlabel_y := Fin 292;
                       xlabel_text :=
                         getBucketLabel fraction_digits row
                           (length data - 1) |})).
Proof.
  intros data maxValue.
  assert (E : omap id (xTicks (renderAxes fraction_digits data maxValue))
              = omap (fun index =>
                        (fun row =>
                           {| tick_x :=
                                chartX (Num.of_nat index)
                                  (Num.of_nat (length data));
                              tick_y2 := Fin 274;
                              xlabel_y := Fin 292;
                              xlabel_text :=
                                getBucketLabel fraction_digits row index |})
                        <$> data !! index)
                  (xTickIndices data)).
  { unfold renderAxes, xTickIndices. cbn [xTicks].
    apply (rendered_imap
             (fun index =>
                shouldRenderTick (Num.of_nat index) (Num.of_nat (length data)))). }
  split; [exact E|]. split; [|split].
  - rewrite E. etransitivity; [apply length_omap_le|].
    apply xTickIndices_length.
  - intros row Hrow. unfold renderAxes. cbn [xTicks].
    rewrite list_lookup_imap, Hrow. cbn [fmap option_fmap option_map].
    now rewrite first_index_ticked, chartX_first.
  - intros row Hlen Hrow. unfold renderAxes. cbn [xTicks].
    rewrite list_lookup_imap, Hrow. cbn [fmap option_fmap option_map].
    now rewrite last_index_ticked, chartX_last.
Qed.

End AxesFacts.

Lemma index_ticks_witness :
  xTicks (renderAxes (fun _ => "") two_days (Fin 20)) !! 0%nat
  = Some (Some {| tick_x := Fin 56;
                  tick_y2 := Fin 274;
                  xlabel_y := Fin 292;
                  xlabel_text :=
                    getBucketLabel (fun _ => "")
                      (row_of "Mon" (VNum (Fin 10))) 0 |}) /\
  xTicks (renderAxes (fun _ => "") two_days (Fin 20)) !! (length two_days - 1)%nat
  = Some (Some {| tick_x := Fin 940;
                  tick_y2 := Fin 274;
                  xlabel_y := Fin 292;
                  xlabel_text :=
                    getBucketLabel (fun _ => "")
                      (row_of "Tue" (VNum (Fin 20)))
                      (length two_days - 1) |}).
Proof.
  pose proof (index_ticks (fun _ => "") two_days (Fin 20)) as (_ & _ & H0 & H1).
  split; [apply H0; reflexivity | apply H1; [cbn; lia | reflexivity]].
Defined.

(** ** Lines and areas *)

Section LinesAndAreas.

Local Open Scope Q_scope.

Variable fraction_digits : Q -> string.

Lemma map_imap {A B C : Type} (g : B -> C) (l : list A) :
  forall f : nat -> A -> B,
    map g (imap f l) = imap (fun n x => g (f n x)) l.
Proof.
  induction l as [|x l IH]; intros f; [reflexivity|].
  cbn [imap map]. f_equal. apply IH.
Qed.

(** The polyline of a line series passes through the centres of its
    markers, in row order, and the markers are those of [LineChart]. *)
Theorem polyline_through_markers :
  forall (data : list Datum) (children : ReactNode),
    map circles (LineChart_scene fraction_digits data children)
    = LineChart data children /\
    Forall
      (fun node =>
         polyline_points node
         = String.concat " " (map (point_text fraction_digits) (circles node)) /\
         length (circles node) = length data)
      (LineChart_scene fraction_digits data children).
Proof.
  intros data children. unfold LineChart_scene, LineChart. split.
  - rewrite List.map_map. reflexivity.
  - apply Forall_fmap, Forall_forall. intros line _.
    cbv beta iota delta [polyline_points circles linePoints compose].
    split; [|apply length_imap].
    f_equal. now rewrite map_imap.
Qed.

Lemma chartX_guard (index : num) (total : nat) :
  (total <= 1)%nat -> chartX index (Num.of_nat total) = Fin 56.
Proof.
  intros Ht. unfold chartX. change (Fin 1) with (Num.of_nat 1).
  rewrite of_nat_leb. apply Nat.leb_le in Ht. now rewrite Ht.
Qed.

Lemma last_index_number (total : nat) :
  (1 <= total)%nat ->
  Num.Math_max [(Num.of_nat total - Fin 1)%num; Fin 0] = Num.of_nat (total - 1).
Proof.
  intros Ht.
  assert (E : (Num.of_nat total - Fin 1)%num = Num.of_nat (total - 1)).
  { unfold Num.of_nat, Num.of_Z, Num.sub. apply Fin_Qred_Z.
    replace (Z.of_nat (total - 1)) with (Z.of_nat total + - (1))%Z by lia.
    now rewrite inject_Z_plus, inject_Z_opp. }
  rewrite E. unfold Num.Math_max. cbn [fold_left].
  unfold Num.of_nat, Num.of_Z.
  change (Num.max2 NInf (Fin (inject_Z (Z.of_nat (total - 1)))))
    with (Fin (inject_Z (Z.of_nat (total - 1)))).
  rewrite max2_Fin.
  destruct (Qle_bool 0 (inject_Z (Z.of_nat (total - 1)))) eqn:L; [reflexivity|].
  exfalso. apply not_true_iff_false in L. apply L, Qle_bool_iff.
  change 0 with (inject_Z 0). rewrite <- Zle_Qle. lia.
Qed.

Lemma area_lastX (total : nat) :
  chartX (Num.Math_max [(Num.of_nat total - Fin 1)%num; Fin 0])
    (Num.of_nat total)
  = if (2 <=? total)%nat then Fin 940 else Fin 56.
Proof.
  destruct (2 <=? total)%nat eqn:E.
  - apply Nat.leb_le in E. rewrite last_index_number by lia.
    now apply chartX_last.
  - apply Nat.leb_gt in E. apply chartX_guard. lia.
Qed.

(** The filled polygon of an area series starts on the baseline under
    the first point, follows the outline of the series, and returns to
    the baseline under the last point: at x = 940 with two rows or more,
    at x = 56 with one row or none. *)
Theorem area_polygon_closed :
  forall (data : list Datum) (children : ReactNode),
    length (AreaChart fraction_digits data children)
    = length (extractSeries children "RechartsArea") /\
    Forall
      (fun node =>
         polygon_points node
         = String.append "56,268 "
             (String.append (outline_points node)
                (if (2 <=? length data)%nat then " 940,268" else " 56,268")))
      (AreaChart fraction_digits data children).
Proof.
  intros data children. unfold AreaChart. split; [apply List.length_map|].
  apply Forall_fmap, Forall_forall. intros area _.
  cbv beta iota zeta delta [polygon_points outline_points compose].
  change (Fin 0) with (Num.of_nat 0).
  rewrite chartX_first, area_lastX.
  change (CHART_HEIGHT - bottom CHART_PADDING)%num with (Fin 268).
  destruct (2 <=? length data)%nat; reflexivity.
Qed.

Lemma truthy_or_else (a b : option string) :
  truthy b = true -> truthy (a ||| b) = true.
Proof. intros Hb. unfold or_else. now destruct (truthy a) eqn:E. Qed.

(** Every line and area is drawn with a colour: a series that declares
    no stroke or fill, or an empty one, gets the default.  An area is
    filled with its [fill], else with its [stroke]; a declared
    [fillOpacity] is kept, 0 included, and 0.25 is used when none is
    declared. *)
Theorem series_colours :
  forall (data : list Datum) (children : ReactNode),
    Forall
      (fun node =>
         truthy (polyline_stroke node) = true /\
         circle_fill node = polyline_stroke node)
      (LineChart_scene fraction_digits data children) /\
    Forall2
      (fun area node =>
         truthy (polygon_fill node) = true /\
         truthy (outline_stroke node) = true /\
         (truthy (fill area) = true -> polygon_fill node = fill area) /\
         (truthy (fill area) = false -> truthy (stroke area) = true ->
          polygon_fill node = stroke area) /\
         (forall opacity, fillOpacity area = Some opacity ->
            polygon_fillOpacity node = opacity) /\
         (fillOpacity area = None -> polygon_fillOpacity node = Fin (1 # 4)))
      (extractSeries children "RechartsArea")
      (AreaChart fraction_digits data children).
Proof.
  intros data children. split.
  - unfold LineChart_scene. apply Forall_fmap, Forall_forall. intros line _.
    cbv beta iota delta [polyline_stroke circle_fill compose].
    split; [|reflexivity].
    now apply truthy_or_else.
  - unfold AreaChart. apply Forall2_fmap_r, Forall_Forall2_diag, Forall_forall.
    intros area _.
    cbv beta iota zeta delta
      [polygon_fill outline_stroke polygon_fillOpacity compose].
    split; [now apply truthy_or_else|]. split; [now apply truthy_or_else|].
    split; [|split; [|split]].
    + intros H. unfold or_else at 2. rewrite H. unfold or_else. now rewrite H.
    + intros H1 H2. unfold or_else at 2. rewrite H1. unfold or_else. now rewrite H2.
    + now intros opacity ->.
    + now intros ->.
Qed.

End LinesAndAreas.

Lemma series_colours_witness :
  Forall2
    (fun area node =>
       truthy (polygon_fill node) = true /\
       truthy (outline_stroke node) = true /\
       (truthy (fill area) = true -> polygon_fill node = fill area) /\
       (truthy (fill area) = false -> truthy (stroke area) = true ->
        polygon_fill node = stroke area) /\
       (forall opacity, fillOpacity area = Some opacity ->
          polygon_fillOpacity node = opacity) /\
       (fillOpacity area = None -> polygon_fillOpacity node = Fin (1 # 4)))
    (extractSeries (RArray [XAxis; Area "v" "#10b981"]) "RechartsArea")
    (AreaChart (fun _ => "") two_days (RArray [XAxis; Area "v" "#10b981"])).
Proof.
  apply (series_colours (fun _ => "") two_days (RArray [XAxis; Area "v" "#10b981"])).
Defined.

(** ** Children of a chart *)

Section ChildrenFacts.

Lemma extractSeries_is_matching (children : ReactNode) (typeName : string) :
  extractSeries children typeName = matching typeName children.
Proof. unfold extractSeries. now rewrite forEach_appends. Qed.

(** How the children are grouped does not matter: the series of a list
    of children are those of its parts, one after the other; wrapping
    children in a nested array, or adding empty nodes and text (what
    conditional rendering leaves behind), changes nothing. *)
Theorem extractSeries_flattens :
  forall (typeName : string) (items1 items2 : list ReactNode)
         (child : ReactNode) (s : string),
    extractSeries (RArray (items1 ++ items2)) typeName
    = extractSeries (RArray items1) typeName
      ++ extractSeries (RArray items2) typeName /\
    extractSeries (RArray [RArray items1]) typeName
    = extractSeries (RArray items1) typeName /\
    extractSeries (RArray [child]) typeName = extractSeries child typeName /\
    extractSeries (RArray (REmpty :: items1)) typeName
    = extractSeries (RArray items1) typeName /\
    extractSeries (RArray (RText s :: items1)) typeName
    = extractSeries (RArray items1) typeName.
Proof.
  intros typeName items1 items2 child s.
  rewrite !extractSeries_is_matching. unfold matching. cbn [declared flat_map].
  rewrite !app_nil_r. repeat split.
  rewrite flat_map_app. apply filter_app_props.
Qed.

Lemma extractSeries_none (children : ReactNode) (typeName : string) :
  Forall (fun e => displayName e <> Some typeName) (declared children) ->
  extractSeries children typeName = [].
Proof.
  intros Hnone. rewrite extractSeries_is_matching. unfold matching.
  induction Hnone as [|e l He _ IH]; [reflexivity|].
  cbn [List.filter]. now rewrite bool_decide_false.
Qed.

(** A chart reads only the children of its own category: adding
    children of other kinds (axes, grid, tooltip, series of another
    chart type) leaves the bars of [BarChart] and the markers of
    [LineChart] as they are. *)
Theorem other_children_ignored :
  forall (data : list Datum) (children others : ReactNode),
    (Forall (fun e => displayName e <> Some "RechartsBar") (declared others) ->
     BarChart data (RArray [children; others]) = BarChart data children /\
     BarChart data (RArray [others; children]) = BarChart data children) /\
    (Forall (fun e => displayName e <> Some "RechartsLine") (declared others) ->
     LineChart data (RArray [children; others]) = LineChart data children /\
     LineChart data (RArray [others; children]) = LineChart data children).
Proof.
  intros data children others.
  assert (E : forall typeName,
            Forall (fun e => displayName e <> Some typeName) (declared others) ->
            extractSeries (RArray [children; others]) typeName
            = extractSeries children typeName /\
            extractSeries (RArray [others; children]) typeName
            = extractSeries children typeName).
  { intros typeName Hnone. apply extractSeries_none in Hnone.
    rewrite !extractSeries_is_matching in *. unfold matching in *.
    cbn [declared flat_map]. rewrite !app_nil_r, !filter_app_props, Hnone.
    now rewrite app_nil_r. }
  split; intros Hnone; destruct (E _ Hnone) as [E1 E2].
  - unfold BarChart. now rewrite E1, E2.
  - unfold LineChart. now rewrite E1, E2.
Qed.

Lemma other_children_ignored_witness :
  BarChart two_days (RArray [Bar "v"; RArray [XAxis; Line "v"]])
  = BarChart two_days (Bar "v") /\
  LineChart two_days (RArray [RArray [XAxis; Bar "v"]; Line "v"])
  = LineChart two_days (Line "v").
Proof.
  pose proof (other_children_ignored two_days (Bar "v") (RArray [XAxis; Line "v"]))
    as [HB _].
  pose proof (other_children_ignored two_days (Line "v") (RArray [XAxis; Bar "v"]))
    as [_ HL].
  split.
  - apply HB. repeat constructor; discriminate.
  - apply HL. repeat constructor; discriminate.
Defined.

End ChildrenFacts.

(** ** Bar layout *)

Section BarLayout.

Local Open Scope Q_scope.

Lemma barWidth_finite (data : list Datum) (bars : list SeriesProps) :
  exists w : Q, barWidth data bars = Fin w.
Proof.
  unfold barWidth. destruct (0 <? length bars)%nat; [|now exists 12].
  destruct (groupWidth_finite data) as (g & ->).
  destruct (of_nat_succ_nonzero (length bars)) as (d & -> & Hd).
  rewrite div_Fin by exact Hd.
  destruct (max_with_floor (Qred (g / d))) as (w & -> & _). now exists w.
Qed.

Lemma barNode_x (m b : num) (g w : Q) (i j : nat) (row : Datum)
    (bar : SeriesProps) :
  rect_x (barNode m (Fin g) (Fin w) b i row j bar)
  = Fin (Qred (58 + inject_Z (Z.of_nat i) * g
               + inject_Z (Z.of_nat j) * (w + 4))).
Proof.
  unfold barNode. cbv beta iota zeta delta [rect_x].
  change (left CHART_PADDING) with (Fin 56).
  unfold Num.of_nat, Num.of_Z. cbn [Num.add Num.mul].
  apply Fin_Qred. rewrite !Qred_correct. ring.
Qed.

(** [BarChart] draws one group per row and, in every group, one bar per
    bar series: nothing for an empty dataset or without a bar series.
    The horizontal geometry is always finite, and inside a group each
    bar starts its own width plus 4 to the right of the bar before it. *)
Theorem bar_layout :
  forall (data : list Datum) (children : ReactNode),
    length (BarChart data children) = length data /\
    Forall
      (fun group =>
         length group = length (extractSeries children "RechartsBar") /\
         Forall
           (fun node =>
              Num.isFinite (rect_x node) = true /\
              Num.isFinite (rect_width node) = true)
           group)
      (BarChart data children) /\
    forall (i j : nat) (group : list BarNode) (n1 n2 : BarNode),
      BarChart data children !! i = Some group ->
      group !! j = Some n1 -> group !! S j = Some n2 ->
      (rect_x n2 - rect_x n1)%num = (rect_width n1 + Fin 4)%num.
Proof.
  intros data children. unfold BarChart.
  set (bars := extractSeries children "RechartsBar").
  destruct (groupWidth_finite data) as (g & Hg).
  destruct (barWidth_finite data bars) as (w & Hw). rewrite Hg, Hw.
  change (CHART_HEIGHT - bottom CHART_PADDING)%num with (Fin 268).
  split; [apply length_imap|]. split.
  - apply Forall_lookup. intros i group Hi. rewrite list_lookup_imap in Hi.
    destruct (data !! i) as [row|]; [|discriminate]. injection Hi as <-.
    split; [apply length_imap|].
    apply Forall_lookup. intros j node Hj. rewrite list_lookup_imap in Hj.
    destruct (bars !! j) as [bar|]; [|discriminate]. injection Hj as <-.
    rewrite barNode_x. split; reflexivity.
  - intros i j group n1 n2 Hi H1 H2. rewrite list_lookup_imap in Hi.
    destruct (data !! i) as [row|]; [|discriminate]. injection Hi as <-.
    rewrite list_lookup_imap in H1, H2.
    destruct (bars !! j) as [bar1|]; [|discriminate]. injection H1 as <-.
    destruct (bars !! S j) as [bar2|]; [|discriminate]. injection H2 as <-.
    rewrite !barNode_x. unfold barNode. cbv beta iota zeta delta [rect_width].
    cbn [Num.sub Num.add]. apply Fin_Qred. rewrite !Qred_correct.
    rewrite Nat2Z.inj_succ. unfold Z.succ. rewrite inject_Z_plus.
    change (inject_Z 1) with 1. ring.
Qed.

Lemma bar_layout_witness :
  (rect_x {| rect_x := Fin (628 # 3); rect_y := NaN;
             rect_width := Fin (442 # 3); rect_height := NaN;
             label := None |}
   - rect_x {| rect_x := Fin 58; rect_y := NaN;
               rect_width := Fin (442 # 3); rect_height := NaN;
               label := Some {| text_x := Fin (395 # 3); text_y := NaN;
                                text_value := Fin 10 |} |})%num
  = (rect_width {| rect_x := Fin 58; rect_y := NaN;
                   rect_width := Fin (442 # 3); rect_height := NaN;
                   label := Some {| text_x := Fin (395 # 3); text_y := NaN;
                                    text_value := Fin 10 |} |}
     + Fin 4)%num.
Proof.
  pose proof (bar_layout two_days (RArray [Bar "v"; Bar "w"])) as (_ & _ & H).
  exact (H 0%nat 0%nat _ _ _ eq_refl eq_refl eq_refl).
Defined.

End BarLayout.

(** ** The insights page: totals *)

Module InsightsFacts.

Import Insights.

Local Open Scope Q_scope.

(** *** Order on numbers that are not [NaN] *)

Lemma gtb_irrefl (a : num) : (a >? a)%num = false.
Proof.
  destruct a as [q| | |]; try reflexivity.
  unfold Num.gtb, Num.ltb. apply negb_false_iff, Qle_bool_iff, Qle_refl.
Qed.

Lemma ltb_trans (a b c : num) :
  (a <? b)%num = true -> (b <? c)%num = true -> (a <? c)%num = true.
Proof.
  destruct a as [x| | |], b as [y| | |], c as [z| | |];
    try discriminate; try reflexivity.
  rewrite !ltb_Fin. lra.
Qed.

Lemma ltb_false_leb (a b : num) :
  Num.isNaN a = false -> Num.isNaN b = false ->
  (a <? b)%num = false -> (b <=? a)%num = true.
Proof.
  destruct a as [x| | |], b as [y| | |];
    try discriminate; try reflexivity.
  intros _ _ H. unfold Num.ltb in H. apply negb_false_iff in H. exact H.
Qed.

Lemma leb_ltb_trans (a b c : num) :
  (a <=? b)%num = true -> (b <? c)%num = true -> (a <? c)%num = true.
Proof.
  destruct a as [x| | |], b as [y| | |], c as [z| | |];
    try discriminate; try reflexivity.
  rewrite leb_Fin, !ltb_Fin. lra.
Qed.

(** *** A [reduce] that keeps the better of two rows *)

Section Pick.

Variable key : ChartBucket -> num.
Variable better : num -> num -> bool.

Hypothesis better_irrefl : forall a, better a a = false.
Hypothesis better_trans :
  forall a b c, better c b = true -> better b a = true -> better c a = true.
Hypothesis better_total :
  forall a b c,
    Num.isNaN a = false -> Num.isNaN b = false ->
    better c b = true -> better a b = false -> better c a = true.

Lemma pick_step (rest : list ChartBucket) :
  Forall (fun x => Num.isNaN (key x) = false) rest ->
  forall (before after : list ChartBucket) (a : ChartBucket),
    Num.isNaN (key a) = false ->
    Forall (fun x => better (key a) (key x) = true) before ->
    Forall (fun x => Num.isNaN (key x) = false /\ better (key x) (key a) = false)
      after ->
    exists (b : ChartBucket) (l1 l2 : list ChartBucket),
      fold_left
        (fun acc item =>
           if better (key item) (pick_number key acc) then Some item else acc)
        rest (Some a)
      = Some b /\
      before ++ a :: after ++ rest = l1 ++ b :: l2 /\
      Forall (fun x => better (key b) (key x) = true) l1 /\
      Forall (fun x => better (key x) (key b) = false) l2.
Proof.
  induction 1 as [|c rest Hc Hrest IH]; intros before after a Ha Hb Haf.
  - exists a, before, after. cbn [fold_left]. rewrite app_nil_r.
    split; [reflexivity|]. split; [reflexivity|]. split; [exact Hb|].
    eapply Forall_impl; [exact Haf|]. now intros x [_ Hx].
  - cbn [fold_left pick_number].
    destruct (better (key c) (key a)) eqn:E.
    + destruct (IH (before ++ a :: after) [] c Hc) as (b & l1 & l2 & H1 & H2 & H3 & H4).
      * apply Forall_app. split.
        -- eapply Forall_impl; [exact Hb|]. intros x Hx.
           now apply (better_trans _ (key a)).
        -- constructor; [exact E|].
           eapply Forall_impl; [exact Haf|]. intros x [Hn Hx].
           now apply (better_total _ (key a)).
      * constructor.
      * exists b, l1, l2. split; [exact H1|]. split; [|now split].
        rewrite <- H2. cbn [app]. now rewrite <- !app_assoc.
    + destruct (IH before (after ++ [c]) a Ha Hb) as (b & l1 & l2 & H1 & H2 & H3 & H4).
      * apply Forall_app. split; [exact Haf|]. constructor; [now split|constructor].
      * exists b, l1, l2. split; [exact H1|]. split; [|now split].
        rewrite <- H2. now rewrite <- !app_assoc.
Qed.

(** Started from the first row, the [reduce] returns the first row that
    no row betters: it betters every row before it. *)
Lemma pick_first_best (l : list ChartBucket) :
  l <> [] ->
  Forall (fun x => Num.isNaN (key x) = false) l ->
  exists (b : ChartBucket) (l1 l2 : list ChartBucket),
    fold_left
      (fun acc item =>
         if better (key item) (pick_number key acc) then Some item else acc)
      l (head l)
    = Some b /\
    l = l1 ++ b :: l2 /\
    Forall (fun x => better (key b) (key x) = true) l1 /\
    Forall (fun x => better (key x) (key b) = false) l2.
Proof.
  destruct l as [|a rest]; [congruence|]. intros _ Hl.
  apply Forall_cons in Hl as [Ha Hrest].
  cbn [head fold_left pick_number]. rewrite better_irrefl.
  destruct (pick_step rest Hrest [] [] a Ha) as (b & l1 & l2 & H);
    [constructor | constructor|].
  exists b, l1, l2. exact H.
Qed.

End Pick.

Lemma ltb_irrefl (a : num) : (a <? a)%num = false.
Proof. apply gtb_irrefl. Qed.

Lemma gtb_total (a b c : num) :
  Num.isNaN a = false -> Num.isNaN b = false ->
  (c >? b)%num = true -> (a >? b)%num = false -> (c >? a)%num = true.
Proof.
  unfold Num.gtb. intros Ha Hb Hcb Hab.
  apply (leb_ltb_trans a b c); [|exact Hcb].
  now apply ltb_false_leb.
Qed.

Lemma ltb_total (a b c : num) :
  Num.isNaN a = false -> Num.isNaN b = false ->
  (c <? b)%num = true -> (a <? b)%num = false -> (c <? a)%num = true.
Proof.
  intros Ha Hb Hcb Hab. apply ltb_false_leb in Hab; [|exact Ha|exact Hb].
  destruct a as [x| | |], b as [y| | |], c as [z| | |];
    try discriminate; try reflexivity.
  revert Hcb Hab. rewrite leb_Fin, !ltb_Fin. lra.
Qed.

Lemma gtb_trans (a b c : num) :
  (c >? b)%num = true -> (b >? a)%num = true -> (c >? a)%num = true.
Proof. unfold Num.gtb. intros H1 H2. now apply (ltb_trans a b c). Qed.

Lemma ltb_trans' (a b c : num) :
  (c <? b)%num = true -> (b <? a)%num = true -> (c <? a)%num = true.
Proof. apply ltb_trans. Qed.

Lemma finite_not_NaN (a : num) : Num.isFinite a = true -> Num.isNaN a = false.
Proof. now destruct a. Qed.

(** The peak bucket is the first bucket with the largest number of
    requests: its count is above that of every bucket before it and at
    least that of every bucket after it.  Without buckets it is the
    fallback, labelled ["-"] with 0 requests. *)
Theorem peak_requests_bucket :
  pick_label (peakRequestsBucket (chartTotals [])) = "-" /\
  pick_number (fun b => requests (bucket b))
    (peakRequestsBucket (chartTotals [])) = Fin 0 /\
  forall chartData : list ChartBucket,
    chartData <> [] ->
    Forall (fun x => Num.isNaN (requests (bucket x)) = false) chartData ->
    exists (b : ChartBucket) (l1 l2 : list ChartBucket),
      peakRequestsBucket (chartTotals chartData) = Some b /\
      chartData = l1 ++ b :: l2 /\
      Forall
        (fun x => (requests (bucket x) <? requests (bucket b))%num = true) l1 /\
      Forall
        (fun x => (requests (bucket x) <=? requests (bucket b))%num = true) l2.
Proof.
  split; [reflexivity|]. split; [reflexivity|].
  intros chartData Hne Hnan.
  destruct (pick_first_best (fun b => requests (bucket b)) Num.gtb
              gtb_irrefl gtb_trans gtb_total chartData Hne Hnan)
    as (b & l1 & l2 & Hb & El & H1 & H2).
  exists b, l1, l2. split; [exact Hb|]. split; [exact El|]. split; [exact H1|].
  rewrite El in Hnan. apply Forall_app in Hnan as [_ Hnan].
  apply Forall_cons in Hnan as [Hbn Hnan].
  apply Forall_forall. intros x Hx.
  rewrite Forall_forall in H2, Hnan.
  apply ltb_false_leb; [exact Hbn | now apply Hnan | now apply H2].
Qed.

Lemma peak_requests_bucket_witness :
  exists (b : ChartBucket) (l1 l2 : list ChartBucket),
    peakRequestsBucket (chartTotals sample_chartData) = Some b /\
    sample_chartData = l1 ++ b :: l2 /\
    Forall
      (fun x => (requests (bucket x) <? requests (bucket b))%num = true) l1 /\
    Forall
      (fun x => (requests (bucket x) <=? requests (bucket b))%num = true) l2.
Proof.
  pose proof peak_requests_bucket as (_ & _ & H).
  apply (H sample_chartData); [discriminate | repeat constructor].
Defined.

Example peak_of_sample :
  pick_label (peakRequestsBucket (chartTotals sample_chartData)) = "b" /\
  pick_label (slowestLatencyBucket (chartTotals sample_chartData)) = "c" /\
  pick_label (fastestLatencyBucket (chartTotals sample_chartData)) = "b" /\
  avgReqPerBucket (chartTotals sample_chartData) = Fin (23 # 4).
Proof. repeat split. Qed.

(** *** Sums and averages *)

Lemma sum_bounds (key : ChartBucket -> num) (l : list ChartBucket) :
  Forall (fun x => Num.isFinite (key x) = true) l ->
  forall s : Q,
  exists t : Q,
    fold_left (fun sum item => (sum + key item)%num) l (Fin s) = Fin t /\
    (forall lo : Q,
       Forall (fun x => (Fin lo <=? key x)%num = true) l ->
       s + inject_Z (Z.of_nat (length l)) * lo <= t) /\
    (forall hi : Q,
       Forall (fun x => (key x <=? Fin hi)%num = true) l ->
       t <= s + inject_Z (Z.of_nat (length l)) * hi).
Proof.
  induction 1 as [|x l Hx Hl IH]; intros s.
  - exists s. split; [reflexivity|].
    change (inject_Z (Z.of_nat (length (@nil ChartBucket)))) with 0.
    split; intros; lra.
  - cbn [fold_left]. destruct (key x) as [q| | |] eqn:E; try discriminate.
    cbn [Num.add]. destruct (IH (Qred (s + q))) as (t & Ht & Hlo & Hhi).
    exists t. split; [exact Ht|].
    assert (L : inject_Z (Z.of_nat (length (x :: l)))
                == inject_Z (Z.of_nat (length l)) + 1).
    { cbn [length]. rewrite Nat2Z.inj_succ. unfold Z.succ.
      now rewrite inject_Z_plus. }
    split.
    + intros lo Hall. apply Forall_cons in Hall as [Hq Hall].
      rewrite E in Hq. apply leb_Fin in Hq.
      specialize (Hlo lo Hall). rewrite Qred_correct in Hlo. rewrite L. nra.
    + intros hi Hall. apply Forall_cons in Hall as [Hq Hall].
      rewrite E in Hq. apply leb_Fin in Hq.
      specialize (Hhi hi Hall). rewrite Qred_correct in Hhi. rewrite L. nra.
Qed.

Lemma totalBuckets_positive (chartData : list ChartBucket) :
  exists n : Q,
    (if (length chartData =? 0)%nat then Fin 1
     else Num.of_nat (length chartData)) = Fin n /\
    1 <= n /\
    (chartData <> [] -> n == inject_Z (Z.of_nat (length chartData))).
Proof.
  destruct chartData as [|x l].
  - exists 1. split; [reflexivity|]. split; [lra | congruence].
  - exists (inject_Z (Z.of_nat (length (x :: l)))).
    split; [reflexivity|]. split; [|reflexivity].
    change 1 with (inject_Z 1). rewrite <- Zle_Qle. cbn [length]. lia.
Qed.

(** *** Sums of whole counts *)

Lemma add_of_Z (a c : Z) : (Num.of_Z a + Num.of_Z c)%num = Num.of_Z (a + c).
Proof.
  unfold Num.of_Z. cbn [Num.add]. apply Fin_Qred_Z.
  now rewrite inject_Z_plus.
Qed.

Lemma sum_of_whole (key : ChartBucket -> num) (l : list ChartBucket) :
  forall (counts : list Z) (a : Z),
    map key l = map Num.of_Z counts ->
    fold_left (fun sum item => (sum + key item)%num) l (Num.of_Z a)
    = Num.of_Z (a + foldr Z.add 0%Z counts).
Proof.
  induction l as [|x l IH]; intros [|c counts] a E; try discriminate.
  - cbn. now rewrite Z.add_0_r.
  - cbn [map] in E. injection E as Ex El.
    cbn [fold_left foldr]. rewrite Ex, add_of_Z, (IH counts _ El).
    f_equal. lia.
Qed.

Lemma sum_of_counts (key : ChartBucket -> num) (l : list ChartBucket)
    (counts : list Z) :
  map key l = map Num.of_Z counts ->
  sum_of key l = Num.of_Z (foldr Z.add 0%Z counts).
Proof.
  intros E. unfold sum_of. change (Fin 0) with (Num.of_Z 0).
  now rewrite (sum_of_whole key l counts 0 E).
Qed.

Lemma prefix_sum_bounds (counts : list Z) :
  Forall (fun c => (0 <= c)%Z) counts ->
  forall k : nat,
    (0 <= foldr Z.add 0 (take k counts) <= foldr Z.add 0 counts)%Z.
Proof.
  induction 1 as [|c counts Hc _ IH]; intros k.
  - rewrite take_nil. cbn. lia.
  - destruct k as [|k]; cbn [take foldr].
    + specialize (IH 0%nat). rewrite take_0 in IH. cbn in IH. lia.
    + specialize (IH k). lia.
Qed.

(** For request counts that are whole, not negative and at most [2^53]
    in sum, every sum the [reduce] goes through is a whole number from 0
    to [2^53], so that the total is the sum of the counts.  The average
    per bucket is not negative and not above the count of the peak
    bucket; without buckets it is 0. *)
Theorem average_requests :
  forall (chartData : list ChartBucket) (counts : list Z),
    map (fun item => requests (bucket item)) chartData
    = map Num.of_Z counts ->
    Forall (fun c => (0 <= c)%Z) counts ->
    (foldr Z.add 0 counts <= 2 ^ 53)%Z ->
    let totals := chartTotals chartData in
    (forall k : nat,
       exists t : Z,
         sum_of (fun item => requests (bucket item)) (take k chartData)
         = Num.of_Z t /\
         (0 <= t <= 2 ^ 53)%Z) /\
    totalRequests totals = Num.of_Z (foldr Z.add 0%Z counts) /\
    exists average : Q,
      avgReqPerBucket totals = Fin average /\
      0 <= average /\
      (Fin average
       <=? pick_number (fun b => requests (bucket b))
             (peakRequestsBucket totals))%num = true /\
      (chartData = [] -> average == 0).
Proof.
  intros chartData counts E Hpos Hsum totals.
  set (key := fun item : ChartBucket => requests (bucket item)) in *.
  split.
  { intros k. exists (foldr Z.add 0%Z (take k counts)). split.
    - apply sum_of_counts. now rewrite <- !List.firstn_map, E.
    - pose proof (prefix_sum_bounds counts Hpos k). lia. }
  assert (Ht : sum_of key chartData = Num.of_Z (foldr Z.add 0%Z counts))
    by now apply sum_of_counts.
  split; [exact Ht|].
  assert (Hkeys : Forall (fun x => exists c : Z,
                            key x = Num.of_Z c /\ (0 <= c)%Z) chartData).
  { clear Ht Hsum totals. revert counts E Hpos.
    induction chartData as [|x l IH]; intros [|c counts] E Hpos;
      try discriminate; constructor.
    - cbn [map] in E. injection E as Ex _.
      apply Forall_cons in Hpos as [Hc _]. now exists c.
    - cbn [map] in E. injection E as _ El.
      apply Forall_cons in Hpos as [_ Hpos]. now apply (IH counts). }
  assert (Hfin : Forall (fun x => Num.isFinite (key x) = true) chartData).
  { eapply Forall_impl; [exact Hkeys|]. now intros x (c & -> & _). }
  destruct (totalBuckets_positive chartData) as (n & Hn & Hn1 & Hnl).
  destruct (sum_bounds key chartData Hfin 0) as (t & Hsumt & Hlo & Hhi).
  subst totals. unfold chartTotals.
  cbv beta iota zeta delta [avgReqPerBucket peakRequestsBucket].
  fold key. unfold sum_of in *. rewrite Hsumt, Hn, div_Fin by lra.
  exists (Qred (t / n)). split; [reflexivity|].
  assert (H0 : 0 <= t).
  { assert (L : 0 + inject_Z (Z.of_nat (length chartData)) * 0 <= t).
    { apply Hlo. eapply Forall_impl; [exact Hkeys|].
      intros x (c & -> & Hc). apply leb_Fin.
      change 0 with (inject_Z 0). now rewrite <- Zle_Qle. }
    lra. }
  split.
  { rewrite Qred_correct. apply Qle_shift_div_l; lra. }
  split.
  - destruct chartData as [|x0 l0] eqn:El.
    + cbn in Hsumt. injection Hsumt as <-. cbn in Hn.
      injection Hn as <-. cbn [fold_left head pick_number].
      apply leb_Fin. rewrite Qred_correct. discriminate.
    + rewrite <- El in *.
      assert (Hne : chartData <> []) by (rewrite El; discriminate).
      assert (Hnan : Forall (fun x => Num.isNaN (key x) = false) chartData).
      { eapply Forall_impl; [exact Hfin|]. intros x. apply finite_not_NaN. }
      destruct (pick_first_best key Num.gtb gtb_irrefl gtb_trans gtb_total
                  chartData Hne Hnan)
        as (b & l1 & l2 & Hb & Eb & H1 & H2).
      subst key. cbv beta in *. rewrite Hb. cbn [pick_number].
      assert (Inb : b ∈ chartData).
      { rewrite Eb. apply list_elem_of_In, in_or_app. right. now left. }
      rewrite Forall_forall in Hkeys.
      destruct (Hkeys b Inb) as (p & Hp & _).
      rewrite Hp. unfold Num.of_Z. apply leb_Fin. rewrite Qred_correct.
      assert (Hall : Forall (fun x => (requests (bucket x)
                                       <=? Fin (inject_Z p))%num = true)
                       chartData).
      { apply Forall_forall. intros x Hx.
        destruct (Hkeys x Hx) as (c & Hc & _).
        rewrite Eb in Hx. apply elem_of_app in Hx as [Hx|Hx].
        - rewrite Forall_forall in H1. specialize (H1 x Hx).
          unfold Num.gtb in H1. rewrite Hp, Hc in H1. rewrite Hc.
          apply ltb_Fin in H1. apply leb_Fin. lra.
        - apply elem_of_cons in Hx as [->|Hx].
          + rewrite Hp. apply leb_Fin. lra.
          + rewrite Forall_forall in H2. specialize (H2 x Hx).
            unfold Num.gtb in H2. rewrite Hp, Hc in H2. rewrite Hc.
            unfold Num.ltb, Num.of_Z in H2. apply negb_false_iff in H2.
            exact H2. }
      specialize (Hhi _ Hall). rewrite <- (Hnl Hne) in Hhi.
      apply Qle_shift_div_r; lra.
  - intros ->. cbn in Hsumt. injection Hsumt as <-. cbn in Hn.
    injection Hn as <-. rewrite Qred_correct. reflexivity.
Qed.

Lemma average_requests_witness :
  totalRequests (chartTotals sample_chartData) = Num.of_Z 23 /\
  exists average : Q,
    avgReqPerBucket (chartTotals sample_chartData) = Fin average /\
    0 <= average /\
    (Fin average
     <=? pick_number (fun b => requests (bucket b))
           (peakRequestsBucket (chartTotals sample_chartData)))%num = true /\
    (sample_chartData = [] -> average == 0).
Proof.
  assert (E : map (fun item => requests (bucket item)) sample_chartData
              = map Num.of_Z [3; 9; 9; 2]%Z) by reflexivity.
  assert (Hpos : Forall (fun c => (0 <= c)%Z) [3; 9; 9; 2]%Z).
  { repeat constructor; lia. }
  assert (Hsum : (foldr Z.add 0 [3; 9; 9; 2] <= 2 ^ 53)%Z).
  { cbn. lia. }
  destruct (average_requests sample_chartData [3; 9; 9; 2]%Z E Hpos Hsum)
    as (_ & H1 & H2).
  split; [exact H1 | exact H2].
Defined.

(** With finite latencies, the fastest and the slowest bucket are
    buckets of the data whose latencies bound every other latency, and
    the average latency lies between them. *)
Theorem latency_extremes :
  forall chartData : list ChartBucket,
    chartData <> [] ->
    Forall (fun x => Num.isFinite (avg_latency_ms (bucket x)) = true)
      chartData ->
    exists fast slow : ChartBucket,
      fastestLatencyBucket (chartTotals chartData) = Some fast /\
      slowestLatencyBucket (chartTotals chartData) = Some slow /\
      In fast chartData /\ In slow chartData /\
      Forall
        (fun x =>
           (avg_latency_ms (bucket fast) <=? avg_latency_ms (bucket x))%num
           = true /\
           (avg_latency_ms (bucket x) <=? avg_latency_ms (bucket slow))%num
           = true)
        chartData /\
      (avg_latency_ms (bucket fast)
       <=? avgLatencyAcrossBuckets (chartTotals chartData))%num = true /\
      (avgLatencyAcrossBuckets (chartTotals chartData)
       <=? avg_latency_ms (bucket slow))%num = true.
Proof.
  intros chartData Hne Hfin.
  set (key := fun b : ChartBucket => avg_latency_ms (bucket b)).
  assert (Hnan : Forall (fun x => Num.isNaN (key x) = false) chartData).
  { eapply Forall_impl; [exact Hfin|]. intros x. apply finite_not_NaN. }
  destruct (pick_first_best key Num.ltb ltb_irrefl ltb_trans' ltb_total
              chartData Hne Hnan)
    as (fast & f1 & f2 & Hfast & Ef & Hf1 & Hf2).
  destruct (pick_first_best key Num.gtb gtb_irrefl gtb_trans gtb_total
              chartData Hne Hnan)
    as (slow & s1 & s2 & Hslow & Es & Hs1 & Hs2).
  assert (Hfin' : forall x, In x chartData -> Num.isFinite (key x) = true).
  { intros x Hx. rewrite Forall_forall in Hfin. apply Hfin.
    now apply list_elem_of_In. }
  assert (Infast : In fast chartData).
  { rewrite Ef. apply in_or_app. right. now left. }
  assert (Inslow : In slow chartData).
  { rewrite Es. apply in_or_app. right. now left. }
  assert (Lo : forall x, In x chartData -> (key fast <=? key x)%num = true).
  { intros x Hx. rewrite Ef in Hx. apply in_app_or in Hx as [Hx|Hx].
    - rewrite Forall_forall in Hf1.
      apply list_elem_of_In, Hf1 in Hx.
      pose proof (Hfin' fast Infast) as F1.
      destruct (key fast) as [a| | |], (key x) as [c| | |];
        try discriminate; try reflexivity.
      apply ltb_Fin in Hx. apply leb_Fin. lra.
    - assert (Hx' : In x chartData).
      { rewrite Ef. apply in_or_app. now right. }
      destruct Hx as [<-|Hx].
      + pose proof (Hfin' fast Infast) as F1.
        destruct (key fast); try discriminate. apply leb_Fin, Qle_refl.
      + rewrite Forall_forall in Hf2. apply list_elem_of_In, Hf2 in Hx.
        apply ltb_false_leb; [| |exact Hx]; apply finite_not_NaN; auto. }
  assert (Hi : forall x, In x chartData -> (key x <=? key slow)%num = true).
  { intros x Hx. rewrite Es in Hx. apply in_app_or in Hx as [Hx|Hx].
    - rewrite Forall_forall in Hs1.
      apply list_elem_of_In, Hs1 in Hx. unfold Num.gtb in Hx.
      pose proof (Hfin' slow Inslow) as F1.
      destruct (key slow) as [a| | |], (key x) as [c| | |];
        try discriminate; try reflexivity.
      apply ltb_Fin in Hx. apply leb_Fin. lra.
    - assert (Hx' : In x chartData).
      { rewrite Es. apply in_or_app. now right. }
      destruct Hx as [<-|Hx].
      + pose proof (Hfin' slow Inslow) as F1.
        destruct (key slow); try discriminate. apply leb_Fin, Qle_refl.
      + rewrite Forall_forall in Hs2. apply list_elem_of_In, Hs2 in Hx.
        unfold Num.gtb in Hx.
        apply ltb_false_leb; [| |exact Hx]; apply finite_not_NaN; auto. }
  exists fast, slow.
  split; [exact Hfast|]. split; [exact Hslow|].
  split; [exact Infast|]. split; [exact Inslow|]. split.
  { apply Forall_forall. intros x Hx. apply list_elem_of_In in Hx.
    split; [now apply Lo | now apply Hi]. }
  destruct (sum_bounds key chartData Hfin 0) as (t & Ht & Hlo & Hhi).
  destruct (totalBuckets_positive chartData) as (n & Hn & Hn1 & Hnl).
  specialize (Hnl Hne).
  pose proof (Hfin' fast Infast) as Ff. pose proof (Hfin' slow Inslow) as Fs.
  unfold chartTotals. cbv beta iota zeta delta [avgLatencyAcrossBuckets].
  unfold sum_of. subst key. cbv beta in *. rewrite Ht, Hn, div_Fin by lra.
  destruct (avg_latency_ms (bucket fast)) as [lo| | |] eqn:Efast;
    try discriminate.
  destruct (avg_latency_ms (bucket slow)) as [hi| | |] eqn:Eslow;
    try discriminate.
  assert (Hlo' : 0 + inject_Z (Z.of_nat (length chartData)) * lo <= t).
  { apply Hlo. apply Forall_forall. intros x Hx.
    apply list_elem_of_In in Hx. now apply Lo. }
  assert (Hhi' : t <= 0 + inject_Z (Z.of_nat (length chartData)) * hi).
  { apply Hhi. apply Forall_forall. intros x Hx.
    apply list_elem_of_In in Hx. now apply Hi. }
  rewrite <- Hnl in Hlo', Hhi'.
  rewrite !leb_Fin, !Qred_correct. split.
  - apply Qle_shift_div_l; [lra | lra].
  - apply Qle_shift_div_r; [lra | lra].
Qed.

Lemma latency_extremes_witness :
  exists fast slow : ChartBucket,
    fastestLatencyBucket (chartTotals sample_chartData) = Some fast /\
    slowestLatencyBucket (chartTotals sample_chartData) = Some slow /\
    In fast sample_chartData /\ In slow sample_chartData /\
    Forall
      (fun x =>
         (avg_latency_ms (bucket fast) <=? avg_latency_ms (bucket x))%num
         = true /\
         (avg_latency_ms (bucket x) <=? avg_latency_ms (bucket slow))%num
         = true)
      sample_chartData /\
    (avg_latency_ms (bucket fast)
     <=? avgLatencyAcrossBuckets (chartTotals sample_chartData))%num = true /\
    (avgLatencyAcrossBuckets (chartTotals sample_chartData)
     <=? avg_latency_ms (bucket slow))%num = true.
Proof.
  apply (latency_extremes sample_chartData); [discriminate | repeat constructor].
Defined.

(** *** Rows of the charts *)




(** *** Pages of the log table *)

Lemma max_one_of_nat (c : nat) :
  Num.Math_max [Fin 1; Num.of_nat c] = Num.of_nat (Nat.max 1 c).
Proof.
  unfold Num.Math_max. cbn [fold_left].
  change (Num.max2 NInf (Fin 1)) with (Fin 1).
  unfold Num.of_nat, Num.of_Z. rewrite max2_Fin.
  destruct (Qle_bool (inject_Z (Z.of_nat c)) 1) eqn:E.
  - apply Qle_bool_iff in E. change 1 with (inject_Z 1) in E.
    rewrite <- Zle_Qle in E. replace (Nat.max 1 c) with 1%nat by lia.
    reflexivity.
  - apply not_true_iff_false in E. rewrite Qle_bool_iff in E.
    change 1 with (inject_Z 1) in E. rewrite <- Zle_Qle in E.
    replace (Nat.max 1 c) with c by lia. reflexivity.
Qed.

(** For a positive page size there is at least one page; the pages hold
    all the items, and when there are items the offset of the last page
    is below their number, so the last page is not empty. *)
Theorem pages_cover_items :
  forall totalItems pageSize : nat,
    (0 < pageSize)%nat ->
    exists pages : nat,
      totalPages (Num.of_nat totalItems) (Num.of_nat pageSize)
      = Num.of_nat pages /\
      (1 <= pages)%nat /\
      (totalItems <= pages * pageSize)%nat /\
      offset (Num.of_nat pages) (Num.of_nat pageSize)
      = Num.of_nat ((pages - 1) * pageSize) /\
      ((0 < totalItems)%nat -> ((pages - 1) * pageSize < totalItems)%nat).
Proof.
  intros totalItems pageSize Hp.
  exists (Nat.max 1 (ceil_div totalItems pageSize)).
  pose proof (ceil_div_bounds totalItems pageSize Hp) as [B1 B2].
  unfold totalPages. rewrite ceil_of_nat_div by exact Hp.
  split; [apply max_one_of_nat|]. split; [lia|]. split; [nia|]. split.
  - unfold offset, Num.of_nat, Num.of_Z. cbn [Num.sub Num.mul].
    apply Fin_Qred_Z. rewrite Qred_correct.
    rewrite Nat2Z.inj_mul, inject_Z_mult.
    replace (Z.of_nat (Nat.max 1 (ceil_div totalItems pageSize) - 1))
      with (Z.of_nat (Nat.max 1 (ceil_div totalItems pageSize)) + - (1))%Z
      by lia.
    rewrite inject_Z_plus, inject_Z_opp. reflexivity.
  - intros Ht.
    destruct (ceil_div totalItems pageSize) as [|c] eqn:E; [lia|].
    replace (Nat.max 1 (S c) - 1)%nat with c by lia. nia.
Qed.

Lemma pages_cover_items_witness :
  exists pages : nat,
    totalPages (Num.of_nat 41) (Num.of_nat 20) = Num.of_nat pages /\
    (1 <= pages)%nat /\
    (41 <= pages * 20)%nat /\
    offset (Num.of_nat pages) (Num.of_nat 20)
    = Num.of_nat ((pages - 1) * 20) /\
    ((0 < 41)%nat -> ((pages - 1) * 20 < 41)%nat).
Proof. apply (pages_cover_items 41 20). lia. Defined.

(** *** Totals over the rows *)

Lemma whole_difference (r f : Z) :
  (0 <= f <= r)%Z ->
  Num.Math_max [(Num.of_Z r - Num.of_Z f)%num; Fin 0] = Num.of_Z (r - f).
Proof.
  intros H. unfold Num.of_Z. cbn [Num.sub]. unfold Num.Math_max.
  cbn [fold_left].
  assert (E : Fin (Qred (inject_Z r - inject_Z f)) = Fin (inject_Z (r - f))).
  { apply (Fin_Qred_Z _ (r - f)). unfold Z.sub, Qminus.
    now rewrite inject_Z_plus, inject_Z_opp. }
  rewrite E. change (Num.max2 NInf (Fin (inject_Z (r - f))))
    with (Fin (inject_Z (r - f))).
  rewrite max2_Fin. replace (Qle_bool 0 (inject_Z (r - f))) with true;
    [reflexivity|].
  symmetry. apply Qle_bool_iff. change 0 with (inject_Z 0).
  rewrite <- Zle_Qle. lia.
Qed.

Lemma split_counts (rs fs : list Z) :
  Forall2 (fun r f => (0 <= f <= r)%Z) rs fs ->
  (foldr Z.add 0 (zip_with Z.sub rs fs) + foldr Z.add 0 fs
   = foldr Z.add 0 rs)%Z /\
  (0 <= foldr Z.add 0 (zip_with Z.sub rs fs))%Z /\
  (0 <= foldr Z.add 0 fs)%Z.
Proof.
  induction 1 as [|r f rs fs H _ IH]; cbn [zip_with foldr]; lia.
Qed.

Lemma rows_of_counts (Date_parse : string -> num)
    (formatDate : num -> InsightsGranularity -> string)
    (g : InsightsGranularity) (buckets : list InsightsTimeseriesBucket) :
  forall rs fs : list Z,
    map requests buckets = map Num.of_Z rs ->
    map failed_requests buckets = map Num.of_Z fs ->
    Forall2 (fun r f => (0 <= f <= r)%Z) rs fs ->
    map (fun item => requests (bucket item))
      (chartData Date_parse formatDate (Some buckets) g)
    = map Num.of_Z rs /\
    map (fun item => failed_requests (bucket item))
      (chartData Date_parse formatDate (Some buckets) g)
    = map Num.of_Z fs /\
    map successful_requests (chartData Date_parse formatDate (Some buckets) g)
    = map Num.of_Z (zip_with Z.sub rs fs).
Proof.
  unfold chartData. change (default [] (Some buckets)) with buckets.
  induction buckets as [|b buckets IH]; intros rs fs Er Ef H.
  - destruct rs, fs; try discriminate. now repeat split.
  - destruct rs as [|r rs], fs as [|f fs]; try discriminate.
    cbn [map] in Er, Ef. injection Er as Er Ers. injection Ef as Ef Efs.
    apply Forall2_cons in H as [Hrf H].
    destruct (IH rs fs Ers Efs H) as (I1 & I2 & I3).
    cbn [map zip_with bucket successful_requests].
    rewrite I1, I2, I3, Er, Ef, (whole_difference r f Hrf). now repeat split.
Qed.

(** Over the rows made from buckets whose counts are whole, with the
    failed requests between 0 and the requests and the requests at most
    [2^53] in sum, the three sums are whole numbers from 0 to [2^53]
    after every row, and the successful and the failed requests add up
    to the requests: after every row, and in the totals. *)
Theorem totals_add_up :
  forall (Date_parse : string -> num)
         (formatDate : num -> InsightsGranularity -> string)
         (buckets : list InsightsTimeseriesBucket) (g : InsightsGranularity)
         (rs fs : list Z),
    map requests buckets = map Num.of_Z rs ->
    map failed_requests buckets = map Num.of_Z fs ->
    Forall2 (fun r f => (0 <= f <= r)%Z) rs fs ->
    (foldr Z.add 0 rs <= 2 ^ 53)%Z ->
    let rows := chartData Date_parse formatDate (Some buckets) g in
    let whole (tr tf ts : num) :=
      exists r f s : Z,
        tr = Num.of_Z r /\ tf = Num.of_Z f /\ ts = Num.of_Z s /\
        (s + f = r)%Z /\ (0 <= s)%Z /\ (0 <= f)%Z /\ (r <= 2 ^ 53)%Z in
    (forall k : nat,
       whole (sum_of (fun item => requests (bucket item)) (take k rows))
         (sum_of (fun item => failed_requests (bucket item)) (take k rows))
         (sum_of successful_requests (take k rows))) /\
    whole (totalRequests (chartTotals rows)) (totalFailed (chartTotals rows))
      (totalSuccess (chartTotals rows)).
Proof.
  intros Date_parse formatDate buckets g rs fs Er Ef H Hsum rows whole.
  destruct (rows_of_counts Date_parse formatDate g buckets rs fs Er Ef H)
    as (R1 & R2 & R3).
  fold rows in R1, R2, R3.
  assert (Hpos : Forall (fun c => (0 <= c)%Z) rs).
  { clear -H. induction H; constructor; [lia | assumption]. }
  assert (Hk : forall k : nat,
            whole (sum_of (fun item => requests (bucket item)) (take k rows))
              (sum_of (fun item => failed_requests (bucket item)) (take k rows))
              (sum_of successful_requests (take k rows))).
  { intros k.
    exists (foldr Z.add 0%Z (take k rs)), (foldr Z.add 0%Z (take k fs)),
      (foldr Z.add 0%Z (take k (zip_with Z.sub rs fs))).
    split; [apply sum_of_counts; now rewrite <- !List.firstn_map, R1|].
    split; [apply sum_of_counts; now rewrite <- !List.firstn_map, R2|].
    split; [apply sum_of_counts; now rewrite <- !List.firstn_map, R3|].
    rewrite zip_with_take.
    destruct (split_counts (take k rs) (take k fs)) as (S1 & S2 & S3);
      [now apply Forall2_take|].
    pose proof (prefix_sum_bounds rs Hpos k). repeat split; lia. }
  split; [exact Hk|].
  specialize (Hk (length rows)). rewrite take_ge in Hk by lia. exact Hk.
Qed.

Lemma totals_add_up_witness :
  exists r f s : Z,
    totalRequests
      (chartTotals
         (chartData (fun _ => NaN) (fun _ _ => "")
            (Some (map bucket sample_chartData)) day)) = Num.of_Z r /\
    totalFailed
      (chartTotals
         (chartData (fun _ => NaN) (fun _ _ => "")
            (Some (map bucket sample_chartData)) day)) = Num.of_Z f /\
    totalSuccess
      (chartTotals
         (chartData (fun _ => NaN) (fun _ _ => "")
            (Some (map bucket sample_chartData)) day)) = Num.of_Z s /\
    (s + f = r)%Z /\ (0 <= s)%Z /\ (0 <= f)%Z /\ (r <= 2 ^ 53)%Z.
Proof.
  assert (Er : map requests (map bucket sample_chartData)
               = map Num.of_Z [3; 9; 9; 2]%Z) by reflexivity.
  assert (Ef : map failed_requests (map bucket sample_chartData)
               = map Num.of_Z [0; 1; 0; 2]%Z) by reflexivity.
  assert (H : Forall2 (fun r f => (0 <= f <= r)%Z)
                [3; 9; 9; 2]%Z [0; 1; 0; 2]%Z).
  { repeat constructor; lia. }
  assert (Hsum : (foldr Z.add 0 [3; 9; 9; 2] <= 2 ^ 53)%Z).
  { cbn. lia. }
  destruct (totals_add_up (fun _ => NaN) (fun _ _ => "")
              (map bucket sample_chartData) day
              [3; 9; 9; 2]%Z [0; 1; 0; 2]%Z Er Ef H Hsum) as (_ & Ht).
  exact Ht.
Defined.

(** *** The queried range *)

Lemma truncate_integer (q : Q) (z : Z) : q == inject_Z z -> Num.truncate q = z.
Proof.
  intros H. unfold Num.truncate.
  rewrite (Qfloor_comp _ _ H), (Qceiling_comp _ _ H), Qfloor_Z, Qceiling_Z.
  now destruct (Qle_bool 0 q).
Qed.

Lemma Date_of_earlier (now k : Z) :
  (- 8640000000000000 <= now - k <= 8640000000000000)%Z ->
  Date_of (Num.of_Z now - Num.of_Z k)%num = Num.of_Z (now - k).
Proof.
  intros Hb. unfold Num.of_Z at 1 2. cbn [Num.sub]. unfold Date_of.
  assert (E : Qred (inject_Z now - inject_Z k) == inject_Z (now - k)).
  { rewrite Qred_correct. unfold Z.sub, Qminus.
    now rewrite inject_Z_plus, inject_Z_opp. }
  rewrite (truncate_integer _ _ E).
  replace (Qle_bool _ _) with true; [reflexivity|].
  symmetry. apply Qle_bool_iff. rewrite E. apply Qabs_Qle_condition.
  change (- inject_Z 8640000000000000) with (inject_Z (- 8640000000000000)).
  rewrite <- !Zle_Qle. lia.
Qed.

Lemma granularity_of_span (now k : Z) :
  granularity {| range_start := Num.of_Z (now - k); range_end := Num.of_Z now |}
  = if (k <=? 48 * 3600000)%Z then hour else day.
Proof.
  unfold granularity. cbn [range_start range_end].
  unfold Num.of_Z. cbn [Num.sub]. rewrite div_Fin by discriminate.
  assert (E : Qred (Qred (inject_Z now - inject_Z (now - k))
                    / inject_Z (1000 * 60 * 60))
              == inject_Z k / inject_Z 3600000).
  { rewrite !Qred_correct. unfold Z.sub, Qminus.
    rewrite !inject_Z_plus, !inject_Z_opp.
    change (inject_Z (1000 * 60 * 60)) with (inject_Z 3600000). field. }
  destruct (Z.leb_spec k (48 * 3600000)) as [H|H].
  - replace (_ <=? _)%num with true; [reflexivity|].
    symmetry. apply leb_Fin. rewrite E. apply Qle_shift_div_r; [reflexivity|].
    change (48 * inject_Z 3600000) with (inject_Z (48 * 3600000)).
    now rewrite <- Zle_Qle.
  - replace (_ <=? _)%num with false; [reflexivity|].
    symmetry. apply leb_Fin_false. rewrite E.
    apply Qlt_shift_div_l; [reflexivity|].
    change (48 * inject_Z 3600000) with (inject_Z (48 * 3600000)).
    now rewrite <- Zlt_Qlt.
Qed.

Lemma custom_test (a b : num) :
  Num.isNaN a = false -> Num.isNaN b = false ->
  (a >=? b)%num = negb (a <? b)%num.
Proof.
  destruct a, b; try discriminate; intros _ _; try reflexivity.
  cbn. now rewrite negb_involutive.
Qed.

Lemma ltb_NaN_l (b : num) : (NaN <? b)%num = false.
Proof. now destruct b. Qed.

Lemma ltb_NaN_r (a : num) : (a <? NaN)%num = false.
Proof. now destruct a. Qed.

(** When the clock is a valid time value at least thirty days after the
    earliest one, the queried range always starts before it ends.  A
    preset gives the last 24, 168 or 720 hours up to now; a custom range
    is the two parsed dates when the first is before the second, and the
    last seven days otherwise.  The 24 hour preset is charted by hour,
    the other two by day. *)
Theorem query_range :
  forall (Date_parse : string -> num) (now : Z) (timePreset : TimePreset)
         (customStart customEnd : string),
    (- 8640000000000000 + 30 * 24 * 3600000 <= now <= 8640000000000000)%Z ->
    let r := range Date_parse (Num.of_Z now) timePreset customStart customEnd in
    let last hours :=
      {| range_start := Num.of_Z (now - hours * 3600000);
         range_end := Num.of_Z now |} in
    (range_start r <? range_end r)%num = true /\
    r = match timePreset with
        | Last24h => last 24%Z
        | Last7d => last 168%Z
        | Last30d => last 720%Z
        | Custom =>
            if (Date_parse customStart <? Date_parse customEnd)%num
            then {| range_start := Date_parse customStart;
                    range_end := Date_parse customEnd |}
            else last 168%Z
        end /\
    (timePreset <> Custom ->
     granularity r = match timePreset with Last24h => hour | _ => day end).
Proof.
  intros Date_parse now timePreset customStart customEnd Hnow r last.
  assert (Hlast : forall h : Z,
            (0 < h <= 720)%Z ->
            {| range_start := Date_of (Num.of_Z now - ms h)%num;
               range_end := Num.of_Z now |} = last h).
  { intros h Hh. unfold last, ms. f_equal.
    replace (h * 60 * 60 * 1000)%Z with (h * 3600000)%Z by lia.
    apply Date_of_earlier. lia. }
  assert (Hlt : forall h : Z,
            (0 < h)%Z -> (range_start (last h) <? range_end (last h))%num = true).
  { intros h Hh. unfold last. cbn [range_start range_end].
    apply ltb_Fin. rewrite <- Zlt_Qlt. lia. }
  assert (Hr : r = match timePreset with
        | Last24h => last 24%Z
        | Last7d => last 168%Z
        | Last30d => last 720%Z
        | Custom =>
            if (Date_parse customStart <? Date_parse customEnd)%num
            then {| range_start := Date_parse customStart;
                    range_end := Date_parse customEnd |}
            else last 168%Z
        end).
  { subst r. unfold range. destruct timePreset.
    - apply (Hlast 24%Z). lia.
    - apply (Hlast 168%Z). lia.
    - apply (Hlast 720%Z). lia.
    - change (7 * 24)%Z with 168%Z. rewrite (Hlast 168%Z) by lia.
      unfold parseLocalDateTimeInputValue.
      destruct (Num.isNaN (Date_parse customStart)) eqn:Ea.
      + destruct (Date_parse customStart); try discriminate.
        now rewrite ltb_NaN_l.
      + destruct (Num.isNaN (Date_parse customEnd)) eqn:Eb.
        * destruct (Date_parse customEnd); try discriminate.
          now rewrite ltb_NaN_r.
        * rewrite (custom_test _ _ Ea Eb).
          now destruct (Date_parse customStart <? Date_parse customEnd)%num. }
  split; [|split; [exact Hr|]].
  - rewrite Hr. destruct timePreset; try (apply Hlt; lia).
    destruct (Date_parse customStart <? Date_parse customEnd)%num eqn:E.
    + exact E.
    + apply Hlt. lia.
  - intros Hc. rewrite Hr. unfold last.
    destruct timePreset; try (now rewrite granularity_of_span).
    now contradict Hc.
Qed.

Lemma query_range_witness :
  (range_start (range (fun _ => NaN) (Num.of_Z 1000000000000) Last24h "" "")
   <? range_end (range (fun _ => NaN) (Num.of_Z 1000000000000) Last24h "" ""))%num
  = true /\
  granularity (range (fun _ => NaN) (Num.of_Z 1000000000000) Last24h "" "")
  = hour.
Proof.
  assert (H : (- 8640000000000000 + 30 * 24 * 3600000 <= 1000000000000
               <= 8640000000000000)%Z) by lia.
  destruct (query_range (fun _ => NaN) 1000000000000 Last24h "" "" H)
    as (H1 & _ & H3).
  split; [exact H1|]. apply H3. discriminate.
Defined.

(** *** The request quality graph *)

Lemma maxBucketValue_bounds (data : list ChartBucket) :
  Forall (fun item =>
            Num.isFinite (successful_requests item) = true /\
            Num.isFinite (failed_requests (bucket item)) = true) data ->
  exists m : Q,
    maxBucketValue data = Fin m /\ 1 <= m /\
    Forall (fun item =>
              exists s f : Q,
                successful_requests item = Fin s /\
                failed_requests (bucket item) = Fin f /\ s <= m /\ f <= m)
      data.
Proof.
  intros Hfin. unfold maxBucketValue, Num.Math_max at 1. cbn [fold_left].
  change (Num.max2 NInf (Fin 1)) with (Fin 1).
  set (l := map _ data).
  assert (Hl : Forall (fun n => Num.isFinite n = true) l).
  { subst l. apply Forall_fmap. eapply Forall_impl; [exact Hfin|].
    intros item [Hs Hf]. cbn.
    destruct (successful_requests item) as [s| | |]; try discriminate.
    destruct (failed_requests (bucket item)) as [f| | |]; try discriminate.
    unfold Num.Math_max. cbn [fold_left].
    change (Num.max2 NInf (Fin s)) with (Fin s). rewrite max2_Fin.
    now destruct (Qle_bool f s). }
  destruct (fold_max2_Fin l Hl 1) as (m & Hm & H1 & Hle & _).
  exists m. split; [exact Hm|]. split; [exact H1|].
  subst l. apply Forall_fmap in Hle.
  apply Forall_forall. intros item Hin.
  rewrite Forall_forall in Hfin, Hle.
  destruct (Hfin item Hin) as [Hs Hf]. specialize (Hle item Hin). cbn in Hle.
  destruct (successful_requests item) as [s| | |]; try discriminate.
  destruct (failed_requests (bucket item)) as [f| | |]; try discriminate.
  exists s, f. split; [reflexivity|]. split; [reflexivity|].
  unfold Num.Math_max in Hle. cbn [fold_left] in Hle.
  change (Num.max2 NInf (Fin s)) with (Fin s) in Hle. rewrite max2_Fin in Hle.
  destruct (Qle_bool f s) eqn:E.
  - apply Qle_bool_iff in E. apply leb_Fin in Hle. split; lra.
  - apply not_true_iff_false in E. rewrite Qle_bool_iff in E.
    apply leb_Fin in Hle. split; lra.
Qed.

Lemma barPercent_bounds (c m : Q) :
  1 <= m -> c <= m ->
  exists p : Q,
    barPercent (Fin c) (Fin m) = Fin p /\ 0 <= p /\ p <= 100 /\
    (0 < c -> 3 <= p) /\ (c <= 0 -> p == 0).
Proof.
  intros Hm Hc. unfold barPercent.
  rewrite div_Fin by lra. cbn [Num.mul].
  unfold Num.Math_max. cbn [fold_left].
  set (q := Qred (Qred (c / m) * 100)).
  assert (Hq : q == c / m * 100).
  { subst q. now rewrite !Qred_correct. }
  change (Num.max2 NInf (Fin q)) with (Fin q).
  assert (Hup : c / m * 100 <= 100).
  { setoid_replace 100 with (1 * 100) using relation Qeq at 2 by reflexivity.
    apply Qmult_le_compat_r; [|lra].
    apply Qle_shift_div_r; lra. }
  unfold Num.gtb, Num.ltb.
  destruct (Qle_bool c 0) eqn:E; cbn [negb].
  - apply Qle_bool_iff in E.
    assert (Hlow : c / m * 100 <= 0).
    { setoid_replace 0 with (0 * 100) using relation Qeq by reflexivity.
      apply Qmult_le_compat_r; [|lra].
      apply Qle_shift_div_r; lra. }
    rewrite max2_Fin. destruct (Qle_bool 0 q) eqn:E0.
    + apply Qle_bool_iff in E0. exists q. split; [reflexivity|].
      repeat split; intros; lra.
    + exists 0. split; [reflexivity|]. repeat split; intros; lra.
  - apply not_true_iff_false in E. rewrite Qle_bool_iff in E.
    rewrite max2_Fin. destruct (Qle_bool 3 q) eqn:E0.
    + apply Qle_bool_iff in E0. exists q. split; [reflexivity|].
      repeat split; intros; lra.
    + exists 3. split; [reflexivity|]. repeat split; intros; lra.
Qed.

(** The request quality graph shows the last twelve rows at most, in
    their order.  For rows with finite counts every bar height is a
    percentage between 0 and 100: at least 3 for a positive count, and 0
    for a count that is not positive. *)
Theorem quality_bars :
  forall chartData : list ChartBucket,
    Forall (fun item =>
              Num.isFinite (successful_requests item) = true /\
              Num.isFinite (failed_requests (bucket item)) = true)
      chartData ->
    let data := requestQualityData chartData in
    let shown (count height : num) :=
      exists c p : Q,
        count = Fin c /\ height = Fin p /\ 0 <= p /\ p <= 100 /\
        (0 < c -> 3 <= p) /\ (c <= 0 -> p == 0) in
    length data = Nat.min 12 (length chartData) /\
    (exists older, chartData = older ++ data) /\
    Forall2
      (fun item bars =>
         shown (successful_requests item) (fst bars) /\
         shown (failed_requests (bucket item)) (snd bars))
      data (RequestQualityGraph data).
Proof.
  intros chartData Hfin data shown.
  split; [subst data; unfold requestQualityData; rewrite length_drop; lia|].
  split.
  { exists (take (length chartData - 12) chartData).
    subst data. unfold requestQualityData. now rewrite take_drop. }
  assert (Hdata : Forall (fun item =>
              Num.isFinite (successful_requests item) = true /\
              Num.isFinite (failed_requests (bucket item)) = true) data).
  { subst data. unfold requestQualityData. now apply Forall_drop. }
  destruct (maxBucketValue_bounds data Hdata) as (m & Hm & H1 & Hle).
  unfold RequestQualityGraph. rewrite Hm.
  apply Forall2_fmap_r, Forall_Forall2_diag.
  eapply Forall_impl; [exact Hle|].
  intros item (s & f & Hs & Hf & Hsm & Hfm). cbn [fst snd].
  split.
  - rewrite Hs. destruct (barPercent_bounds s m H1 Hsm) as (p & Hp & Hrest).
    exists s, p. split; [reflexivity|]. split; [exact Hp|exact Hrest].
  - rewrite Hf. destruct (barPercent_bounds f m H1 Hfm) as (p & Hp & Hrest).
    exists f, p. split; [reflexivity|]. split; [exact Hp|exact Hrest].
Qed.

Lemma quality_bars_witness :
  length (requestQualityData sample_chartData) = 4%nat /\
  Forall2
    (fun item bars =>
       (exists c p : Q,
          successful_requests item = Fin c /\ fst bars = Fin p /\
          0 <= p /\ p <= 100 /\ (0 < c -> 3 <= p) /\ (c <= 0 -> p == 0)) /\
       (exists c p : Q,
          failed_requests (bucket item) = Fin c /\ snd bars = Fin p /\
          0 <= p /\ p <= 100 /\ (0 < c -> 3 <= p) /\ (c <= 0 -> p == 0)))
    (requestQualityData sample_chartData)
    (RequestQualityGraph (requestQualityData sample_chartData)).
Proof.
  assert (H : Forall (fun item =>
              Num.isFinite (successful_requests item) = true /\
              Num.isFinite (failed_requests (bucket item)) = true)
            sample_chartData).
  { repeat constructor. }
  destruct (quality_bars sample_chartData H) as (H1 & _ & H3).
  split; [exact H1 | exact H3].
Defined.

End InsightsFacts.
